(** * Boids flocking simulation (boids-py/main.py): model and properties

    The simulation of [main.py] is embedded method by method.  Python
    floats are modelled by the real numbers: arithmetic is exact, so the
    results below are statements about the algorithm before rounding
    (the reading the specification itself takes when it speaks of a
    "floating tolerance").

    A [Boid] object is identified with its index in the [boids] list,
    which is the only place the program keeps boids: every element is
    built by its own call of [Boid()], so no object occurs twice and the
    identity test [boid != self] is the index test.  The list is the
    mutable store that all methods share.  The [Vector2] objects held in
    the fields of a boid are never stored anywhere else (every
    behaviour builds its result in a fresh [Vector2]), so fields hold
    vector values. *)

From Stdlib Require Import Reals Lra Lia List Arith Bool Psatz ZArith.
Import ListNotations.

Local Open Scope R_scope.

(** ** Comparisons of floats, as booleans *)

Definition Rltb (a b : R) : bool := if Rlt_dec a b then true else false.

Definition Rgtb (a b : R) : bool := Rltb b a.

(** ** Exceptions *)

(** [ValueError] is what [Vector2.normalize] raises on a vector of
    length zero, [IndexError] what [list.pop] raises on an empty list.
    [Dangling] is not a Python exception: it is the outcome of the model
    when a method is run for an index that is not in the list, which no
    call of the program does (see [update_all_boids_not_dangling]). *)
Inductive exn : Set := ValueError | IndexError | Dangling.

Inductive result (A : Type) : Type :=
| Ok (a : A)
| Raise (e : exn).

Arguments Ok {A} a.
Arguments Raise {A} e.

(** ** pygame.Vector2 *)

Module pygame.

Record Vector2 : Type := mkVector2 { x : R; y : R }.

Definition zero : Vector2 := mkVector2 0 0.

Definition add (u v : Vector2) : Vector2 := mkVector2 (x u + x v) (y u + y v).

Definition sub (u v : Vector2) : Vector2 := mkVector2 (x u - x v) (y u - y v).

Definition mul (u : Vector2) (k : R) : Vector2 := mkVector2 (x u * k) (y u * k).

Definition div (u : Vector2) (k : R) : Vector2 := mkVector2 (x u / k) (y u / k).

Definition neg (u : Vector2) : Vector2 := mkVector2 (- x u) (- y u).

Definition length (u : Vector2) : R := sqrt (x u * x u + y u * y u).

Definition distance_to (u v : Vector2) : R :=
  sqrt ((x v - x u) * (x v - x u) + (y v - y u) * (y v - y u)).

(** [normalize] raises [ValueError] ("Can't normalize Vector of length
    Zero") when the length is zero, and divides the coordinates by the
    length otherwise. *)
Definition normalize (u : Vector2) : result Vector2 :=
  if Req_dec_T (length u) 0 then Raise ValueError else Ok (div u (length u)).

End pygame.

Abbreviation Vector2 := pygame.Vector2.

Declare Scope vec_scope.
Delimit Scope vec_scope with V.
Bind Scope vec_scope with pygame.Vector2.
Infix "+" := pygame.add : vec_scope.
Infix "-" := pygame.sub : vec_scope.
Notation "- u" := (pygame.neg u) : vec_scope.
Infix "*" := pygame.mul : vec_scope.
Infix "/" := pygame.div : vec_scope.

(** ** Module constants *)

Definition WIDTH : R := 1070.
Definition HEIGHT : R := 800.
Definition MAX_SPEED : R := 240.
Definition MAX_FORCE : R := 200.
Definition PERCEPTION : R := 50.
Definition SEPARATION : R := 50.
Definition MOUSE_PERCEPTION : R := 100.
Definition MOUSE_FORCE : R := 30.

(** ** Boid objects and the shared list *)

Record Boid : Type := mkBoid {
  position : Vector2;
  velocity : Vector2;
  acceleration : Vector2;
  life_history : list Z
}.

(** What the simulation calls the state of an agent: its three vectors. *)
Definition snapshot (b : Boid) : Vector2 * Vector2 * Vector2 :=
  (position b, velocity b, acceleration b).

Definition with_position (b : Boid) (p : Vector2) : Boid :=
  mkBoid p (velocity b) (acceleration b) (life_history b).

Definition with_velocity (b : Boid) (v : Vector2) : Boid :=
  mkBoid (position b) v (acceleration b) (life_history b).

Definition with_acceleration (b : Boid) (a : Vector2) : Boid :=
  mkBoid (position b) (velocity b) a (life_history b).

(** In-place replacement of the object at index [i]; nothing happens
    out of range (the methods below never get there: they read the
    object first). *)
Fixpoint replace_nth (i : nat) (f : Boid -> Boid) (boids : list Boid) : list Boid :=
  match boids, i with
  | [], _ => []
  | b :: rest, O => f b :: rest
  | b :: rest, S i' => b :: replace_nth i' f rest
  end.

(** ** The monad of methods: the shared list as state, exceptions *)

Definition M (A : Type) : Type := list Boid -> result (A * list Boid).

Definition ret {A} (a : A) : M A := fun boids => Ok (a, boids).

Definition bind {A B} (m : M A) (k : A -> M B) : M B :=
  fun boids =>
    match m boids with
    | Ok (a, boids') => k a boids'
    | Raise e => Raise e
    end.

Definition raise {A} (e : exn) : M A := fun _ => Raise e.

Definition lift {A} (r : result A) : M A :=
  fun boids => match r with Ok a => Ok (a, boids) | Raise e => Raise e end.

Notation "x <- m ;; k" := (bind m (fun x => k))
  (at level 61, m at next level, right associativity).
Notation "' pat <- m ;; k" := (bind m (fun x => match x with pat => k end))
  (at level 61, pat pattern, m at next level, right associativity).
Notation "m ;;; k" := (bind m (fun _ => k))
  (at level 61, right associativity).

(** Attribute reads and writes of the object at an index. *)

Definition get_attr {A} (attr : Boid -> A) (i : nat) : M A :=
  fun boids =>
    match nth_error boids i with
    | Some b => Ok (attr b, boids)
    | None => Raise Dangling
    end.

Definition set_attr (upd : Boid -> Boid) (i : nat) : M unit :=
  fun boids =>
    match nth_error boids i with
    | Some _ => Ok (tt, replace_nth i upd boids)
    | None => Raise Dangling
    end.

Definition get_position := get_attr position.
Definition get_velocity := get_attr velocity.
Definition get_acceleration := get_attr acceleration.

Definition set_position (i : nat) (p : Vector2) : M unit :=
  set_attr (fun b => with_position b p) i.

Definition set_velocity (i : nat) (v : Vector2) : M unit :=
  set_attr (fun b => with_velocity b v) i.

Definition set_acceleration (i : nat) (a : Vector2) : M unit :=
  set_attr (fun b => with_acceleration b a) i.

(** [len(boids)] *)
Definition len : M nat := fun boids => Ok (List.length boids, boids).

(** A [for] loop over a range of indices, threading the loop variables
    [acc] through the body. *)
Fixpoint for_range {A} (js : list nat) (body : nat -> A -> M A) (acc : A) : M A :=
  match js with
  | [] => ret acc
  | j :: js' => acc' <- body j acc ;; for_range js' body acc'
  end.

(** [for boid in boids: body] *)
Definition for_boids {A} (body : nat -> A -> M A) (acc : A) : M A :=
  n <- len ;; for_range (seq 0 n) body acc.

(** ** class Boid *)

(** The values [Boid.__init__] draws from [random]. *)
Record draws : Type := mkDraws {
  randint_x : Z;
  randint_y : Z;
  uniform_x : R;
  uniform_y : R;
  uniform_speed : R
}.

Definition Boid_init (d : draws) : result Boid :=
  let position := pygame.mkVector2 (IZR (randint_x d)) (IZR (randint_y d)) in
  let velocity := pygame.mkVector2 (uniform_x d) (uniform_y d) in
  match pygame.normalize velocity with
  | Ok n =>
      let velocity := (n * uniform_speed d)%V in
      Ok (mkBoid position velocity pygame.zero (repeat 0%Z 512))
  | Raise e => Raise e
  end.

Definition update (self : nat) (dt : R) : M unit :=
  v <- get_velocity self ;;
  a <- get_acceleration self ;;
  set_velocity self (v + a * dt) ;;;
  v <- get_velocity self ;;
  (if Rgtb (pygame.length v) MAX_SPEED
   then n <- lift (pygame.normalize v) ;; set_velocity self (n * MAX_SPEED)
   else ret tt) ;;;
  p <- get_position self ;;
  v <- get_velocity self ;;
  set_position self (p + v * dt) ;;;
  a <- get_acceleration self ;;
  set_acceleration self (a * 0).

Definition align (self : nat) : M Vector2 :=
  '(steering, total) <-
    for_boids (fun boid '(steering, total) =>
      sp <- get_position self ;;
      bp <- get_position boid ;;
      let distance := pygame.distance_to sp bp in
      if negb (boid =? self)%nat && Rltb distance PERCEPTION && Rgtb distance 0
      then bv <- get_velocity boid ;; ret ((steering + bv)%V, S total)
      else ret (steering, total))
    (pygame.zero, 0%nat) ;;
  if (0 <? total)%nat
  then
    let steering := (steering / INR total)%V in
    n <- lift (pygame.normalize steering) ;;
    let steering := (n * MAX_SPEED)%V in
    v <- get_velocity self ;;
    let steering := (steering - v)%V in
    if Rgtb (pygame.length steering) MAX_FORCE
    then n <- lift (pygame.normalize steering) ;; ret (n * MAX_FORCE)%V
    else ret steering
  else ret steering.

Definition cohesion (self : nat) : M Vector2 :=
  '(steering, total) <-
    for_boids (fun boid '(steering, total) =>
      sp <- get_position self ;;
      bp <- get_position boid ;;
      let distance := pygame.distance_to sp bp in
      if negb (boid =? self)%nat && Rltb distance PERCEPTION && Rgtb distance 0
      then bp <- get_position boid ;; ret ((steering + bp)%V, S total)
      else ret (steering, total))
    (pygame.zero, 0%nat) ;;
  if (0 <? total)%nat
  then
    let steering := (steering / INR total)%V in
    p <- get_position self ;;
    let steering := (steering - p)%V in
    n <- lift (pygame.normalize steering) ;;
    let steering := (n * MAX_SPEED)%V in
    v <- get_velocity self ;;
    let steering := (steering - v)%V in
    if Rgtb (pygame.length steering) MAX_FORCE
    then n <- lift (pygame.normalize steering) ;; ret (n * MAX_FORCE)%V
    else ret steering
  else ret steering.

Definition separation (self : nat) : M Vector2 :=
  '(steering, total) <-
    for_boids (fun boid '(steering, total) =>
      sp <- get_position self ;;
      bp <- get_position boid ;;
      let distance := pygame.distance_to sp bp in
      if negb (boid =? self)%nat && Rltb distance SEPARATION && Rgtb distance 0
      then
        sp <- get_position self ;;
        bp <- get_position boid ;;
        let diff := (sp - bp)%V in
        n <- lift (pygame.normalize diff) ;;
        let diff := (n / distance)%V in
        ret ((steering + diff)%V, S total)
      else ret (steering, total))
    (pygame.zero, 0%nat) ;;
  if (0 <? total)%nat
  then
    let steering := (steering / INR total)%V in
    n <- lift (pygame.normalize steering) ;;
    let steering := (n * MAX_SPEED)%V in
    v <- get_velocity self ;;
    let steering := (steering - v)%V in
    if Rgtb (pygame.length steering) MAX_FORCE
    then n <- lift (pygame.normalize steering) ;; ret (n * MAX_FORCE)%V
    else ret steering
  else ret steering.

Definition react_to_mouse (self : nat) (mouse_pos : Vector2) (is_attracted : bool)
  : M Vector2 :=
  let steering := pygame.zero in
  p <- get_position self ;;
  let distance := pygame.distance_to p mouse_pos in
  if Rltb distance MOUSE_PERCEPTION && Rgtb distance 0
  then
    p <- get_position self ;;
    let diff := (mouse_pos - p)%V in
    diff <- lift (pygame.normalize diff) ;;
    let steering :=
      if is_attracted then (diff * MOUSE_FORCE)%V else (- diff * MOUSE_FORCE)%V in
    if Rgtb (pygame.length steering) MAX_FORCE
    then n <- lift (pygame.normalize steering) ;; ret (n * MAX_FORCE)%V
    else ret steering
  else ret steering.

Definition apply_behavior (self : nat) (mouse_pos : Vector2) (is_attracted : bool)
  : M unit :=
  alignment <- align self ;;
  cohesion <- cohesion self ;;
  separation <- separation self ;;
  mouse_reaction <- react_to_mouse self mouse_pos is_attracted ;;
  a <- get_acceleration self ;; set_acceleration self (a + alignment) ;;;
  a <- get_acceleration self ;; set_acceleration self (a + cohesion) ;;;
  a <- get_acceleration self ;; set_acceleration self (a + separation) ;;;
  a <- get_acceleration self ;; set_acceleration self (a + mouse_reaction).

Definition edges (self : nat) : M unit :=
  p <- get_position self ;;
  (if Rgtb (pygame.x p) WIDTH
   then set_position self (pygame.mkVector2 0 (pygame.y p))
   else if Rltb (pygame.x p) 0
   then set_position self (pygame.mkVector2 WIDTH (pygame.y p))
   else ret tt) ;;;
  p <- get_position self ;;
  if Rgtb (pygame.y p) HEIGHT
  then set_position self (pygame.mkVector2 (pygame.x p) 0)
  else if Rltb (pygame.y p) 0
  then set_position self (pygame.mkVector2 (pygame.x p) HEIGHT)
  else ret tt.

(** ** The frame update and the population handlers *)

(** The body of the loop of [update_all_boids], for one boid. *)
Definition update_boid (dt : R) (mouse_pos : Vector2) (is_attracted : bool)
    (boid : nat) : M unit :=
  apply_behavior boid mouse_pos is_attracted ;;;
  update boid dt ;;;
  edges boid.

Definition update_all_boids (dt : R) (mouse_pos : Vector2) (is_attracted : bool)
  : M unit :=
  for_boids (fun boid _ => update_boid dt mouse_pos is_attracted boid) tt.

(** [[Boid() for _ in range(n)]], the [k]-th boid built from [rand k]. *)
Fixpoint new_boids (rand : nat -> draws) (ks : list nat) : result (list Boid) :=
  match ks with
  | [] => Ok []
  | k :: ks' =>
      match Boid_init (rand k) with
      | Ok b =>
          match new_boids rand ks' with
          | Ok bs => Ok (b :: bs)
          | Raise e => Raise e
          end
      | Raise e => Raise e
      end
  end.

(** [boids.extend(more)] *)
Definition extend (more : list Boid) : M unit := fun boids => Ok (tt, boids ++ more).

(** [boids.pop()] *)
Definition pop : M Boid :=
  fun boids =>
    match rev boids with
    | [] => Raise IndexError
    | b :: _ => Ok (b, removelast boids)
    end.

(** The [K_UP] handler, for [n] new boids (the program has [n = 10]). *)
Definition grow (n : nat) (rand : nat -> draws) : M unit :=
  more <- lift (new_boids rand (seq 0 n)) ;; extend more.

(** The [K_DOWN] handler, for [n] boids to remove (the program has
    [n = 10]). *)
Definition shrink (n : nat) : M unit :=
  count <- len ;;
  for_range (seq 0 (Nat.min n count)) (fun _ _ => pop ;;; ret tt) tt.

Definition key_up : (nat -> draws) -> M unit := grow 10.

Definition key_down : M unit := shrink 10.

(** ** Auxiliary definitions for the statements *)

(** The velocity after the speed limit of [update]. *)
Definition limited (v : Vector2) : Vector2 :=
  if Rgtb (pygame.length v) MAX_SPEED
  then (v / pygame.length v * MAX_SPEED)%V
  else v.

(** One coordinate after [edges], for the bound [limit] of its axis. *)
Definition wrap (limit c : R) : R :=
  if Rgtb c limit then 0 else if Rltb c 0 then limit else c.

(** ** Sample populations *)

Definition resting_boid : Boid :=
  mkBoid (pygame.mkVector2 10 20) (pygame.mkVector2 3 4) (pygame.mkVector2 0 0) [].

(** A boid that has left the world through the left edge. *)
Definition left_of_world : Boid :=
  mkBoid (pygame.mkVector2 (-1) 20) (pygame.mkVector2 (-3) 0) (pygame.mkVector2 0 0) [].

(** A boid that has left the world through the right edge. *)
Definition right_of_world : Boid :=
  mkBoid (pygame.mkVector2 1071 20) (pygame.mkVector2 3 0) (pygame.mkVector2 0 0) [].

(** ** Effects of a method on the shared list *)

(** [m] returns the list as it found it. *)
Definition read_only {A} (m : M A) : Prop :=
  forall (boids boids' : list Boid) (a : A), m boids = Ok (a, boids') -> boids' = boids.

(** [m] keeps the number of boids and every boid but the one at [i]. *)
Definition writes_only (i : nat) {A} (m : M A) : Prop :=
  forall (boids boids' : list Boid) (a : A),
    m boids = Ok (a, boids') ->
    List.length boids' = List.length boids
    /\ forall j : nat, j <> i -> nth_error boids' j = nth_error boids j.

(** ** Two runs on the same snapshots *)

(** Two populations with the same positions, velocities and
    accelerations in the same order. *)
Definition same_snapshots (boids1 boids2 : list Boid) : Prop :=
  map snapshot boids1 = map snapshot boids2.

(** Two outcomes that cannot be told apart: the same exception, or the
    same returned value with the same snapshots. *)
Definition agree {A} (r1 r2 : result (A * list Boid)) : Prop :=
  match r1, r2 with
  | Ok (a1, boids1), Ok (a2, boids2) => a1 = a2 /\ same_snapshots boids1 boids2
  | Raise e1, Raise e2 => e1 = e2
  | _, _ => False
  end.

Definition snapshot_determined {A} (m : M A) : Prop :=
  forall boids1 boids2 : list Boid,
    same_snapshots boids1 boids2 -> agree (m boids1) (m boids2).

(** ** What the behaviours compute, as functions of the list *)

(** The neighbour test of the three flocking behaviours, for the boid
    [boid] at index [j] seen from the boid [s] at index [self]. *)
Definition qualifies (radius : R) (self : nat) (s : Boid) (j : nat) (boid : Boid) : bool :=
  let distance := pygame.distance_to (position s) (position boid) in
  negb (j =? self)%nat && Rltb distance radius && Rgtb distance 0.

(** One turn of the loop of a behaviour: a qualifying neighbour adds
    [term s boid] to [steering] and one to [total]. *)
Definition gather (radius : R) (term : Boid -> Boid -> Vector2) (boids : list Boid)
    (self : nat) (s : Boid) (acc : Vector2 * nat) (j : nat) : Vector2 * nat :=
  match nth_error boids j with
  | Some boid =>
      if qualifies radius self s j boid
      then ((fst acc + term s boid)%V, S (snd acc))
      else acc
  | None => acc
  end.

(** The loop of a behaviour: [steering] and [total] after all boids. *)
Definition scan (radius : R) (term : Boid -> Boid -> Vector2) (boids : list Boid)
    (self : nat) (s : Boid) : Vector2 * nat :=
  fold_left (gather radius term boids self s) (seq 0 (List.length boids))
    (pygame.zero, 0%nat).

Definition align_term (s boid : Boid) : Vector2 := velocity boid.

Definition cohesion_term (s boid : Boid) : Vector2 := position boid.

Definition separation_term (s boid : Boid) : Vector2 :=
  let diff := (position s - position boid)%V in
  (diff / pygame.length diff / pygame.distance_to (position s) (position boid))%V.

(** The limit on the force that ends every behaviour. *)
Definition clamp_force (steering : Vector2) : Vector2 :=
  if Rgtb (pygame.length steering) MAX_FORCE
  then (steering / pygame.length steering * MAX_FORCE)%V
  else steering.

(** From the averaged vector to the force: full speed in that direction,
    minus the own velocity, limited. *)
Definition steer (desired v : Vector2) : result Vector2 :=
  match pygame.normalize desired with
  | Ok n => Ok (clamp_force (n * MAX_SPEED - v))
  | Raise e => Raise e
  end.

(** The force of [react_to_mouse] for the boid [s]. *)
Definition mouse_force (s : Boid) (mouse_pos : Vector2) (is_attracted : bool) : Vector2 :=
  let distance := pygame.distance_to (position s) mouse_pos in
  if Rltb distance MOUSE_PERCEPTION && Rgtb distance 0
  then
    let diff := (mouse_pos - position s)%V in
    let diff := (diff / pygame.length diff)%V in
    clamp_force (if is_attracted then (diff * MOUSE_FORCE)%V else (- diff * MOUSE_FORCE)%V)
  else pygame.zero.

(** The boid [s] after [update] has integrated and [edges] has wrapped. *)
Definition integrated (s : Boid) (dt : R) : Boid :=
  let v := limited (velocity s + acceleration s * dt) in
  let p := (position s + v * dt)%V in
  mkBoid (pygame.mkVector2 (wrap WIDTH (pygame.x p)) (wrap HEIGHT (pygame.y p)))
         v (acceleration s * 0)%V (life_history s).

(** The boid [s] after [apply_behavior] has added the forces [f1] to
    [f4], [update] has integrated and [edges] has wrapped. *)
Definition moved (s : Boid) (f1 f2 f3 f4 : Vector2) (dt : R) : Boid :=
  integrated (with_acceleration s (acceleration s + f1 + f2 + f3 + f4)) dt.

(** The step as the specification words it (section 4.4), to compare
    with [update_all_boids]: first every agent gets the sum of its four
    forces as acceleration, all computed on the population as it stands
    before the step; then every agent is integrated and wrapped. *)
Definition spec_step (dt : R) (mouse_pos : Vector2) (is_attracted : bool) : M unit :=
  for_boids (fun boid _ => apply_behavior boid mouse_pos is_attracted) tt ;;;
  for_boids (fun boid _ => update boid dt ;;; edges boid) tt.

(** The list in which the first [k] boids are as the frame leaves them
    ([after]) and the others as the frame found them ([before]). *)
Definition partly_updated (k : nat) (after before : list Boid) : list Boid :=
  firstn k after ++ skipn k before.

(** ** Sample populations, continued *)

(** Two boids flying to the right on the x axis, 55 apart: out of each
    other's perception radius until the first one has moved. *)
Definition leader : Boid :=
  mkBoid (pygame.mkVector2 0 0) (pygame.mkVector2 10 0) (pygame.mkVector2 0 0) [].

Definition follower : Boid :=
  mkBoid (pygame.mkVector2 55 0) (pygame.mkVector2 10 0) (pygame.mkVector2 0 0) [].

Definition leader_moved : Boid :=
  mkBoid (pygame.mkVector2 10 0) (pygame.mkVector2 10 0) (pygame.mkVector2 0 0) [].

Definition follower_moved : Boid :=
  mkBoid (pygame.mkVector2 265 0) (pygame.mkVector2 210 0) (pygame.mkVector2 0 0) [].

(** The follower after a step in which it saw no neighbour. *)
Definition follower_coasted : Boid :=
  mkBoid (pygame.mkVector2 65 0) (pygame.mkVector2 10 0) (pygame.mkVector2 0 0) [].

Definition pointer_far : Vector2 := pygame.mkVector2 1000 0.

(** The pair again, as [Boid()] builds the objects: with the history
    list of 512 zeros. *)
Definition pair_with_history : list Boid :=
  [ mkBoid (position leader) (velocity leader) (acceleration leader) (repeat 0%Z 512);
    mkBoid (position follower) (velocity follower) (acceleration follower) (repeat 0%Z 512) ].

(** A boid with one neighbour 10 to its right flying right and one 10
    to its left flying left, at the same speed. *)
Definition middle : Boid :=
  mkBoid (pygame.mkVector2 100 100) (pygame.mkVector2 1 0) (pygame.mkVector2 0 0) [].

Definition east : Boid :=
  mkBoid (pygame.mkVector2 110 100) (pygame.mkVector2 1 0) (pygame.mkVector2 0 0) [].

Definition west : Boid :=
  mkBoid (pygame.mkVector2 90 100) (pygame.mkVector2 (-1) 0) (pygame.mkVector2 0 0) [].

Definition crossing : list Boid := [middle; east; west].

(** ** Drawing *)

Definition BOID_SIZE : R := 10.

Definition color : Type := (Z * Z * Z)%type.

Definition RED : color := (255, 0, 0)%Z.

Definition BLUE : color := (0, 0, 255)%Z.

(** [math.atan2(y, x)]: the angle of the point [(x, y)], in the interval
    from [-PI] to [PI]; 0 for the origin. *)
Definition atan2 (y x : R) : R :=
  if Rgtb x 0 then atan (y / x)
  else if Rltb x 0 then (if Rltb y 0 then atan (y / x) - PI else atan (y / x) + PI)
  else if Rgtb y 0 then PI / 2
  else if Rltb y 0 then - (PI / 2)
  else 0.

(** [Boid.draw] returns what it passes to [pygame.draw.polygon]: the
    colour and the three points. *)
Definition draw (self : nat) (is_attracted : bool) : M (color * list (R * R)) :=
  v <- get_velocity self ;;
  let angle := atan2 (pygame.y v) (pygame.x v) in
  p <- get_position self ;;
  let p1 := (pygame.x p + BOID_SIZE * cos angle, pygame.y p + BOID_SIZE * sin angle) in
  let p2 := (pygame.x p + BOID_SIZE * cos (angle + 25 / 10),
             pygame.y p + BOID_SIZE * sin (angle + 25 / 10)) in
  let p3 := (pygame.x p + BOID_SIZE * cos (angle - 25 / 10),
             pygame.y p + BOID_SIZE * sin (angle - 25 / 10)) in
  let color := if is_attracted then BLUE else RED in
  ret (color, [p1; p2; p3]).

(** [draw_all_boids] returns the polygons in the order they are drawn. *)
Definition draw_all_boids (is_attracted : bool) : M (list (color * list (R * R))) :=
  for_boids (fun boid screen => polygon <- draw boid is_attracted ;; ret (screen ++ [polygon]))
    [].

(** ** Moving the whole scene *)



(** ** More sample data *)

(** A boid at rest, 10 to the left of [east]. *)
Definition still : Boid :=
  mkBoid (pygame.mkVector2 100 100) (pygame.mkVector2 0 0) (pygame.mkVector2 0 0) [].

(** Draws of [random] for one boid: position (5, 5), direction (1, 0),
    speed 10. *)
Definition one_draw : draws := mkDraws 5 5 1 0 10.

(** * Properties *)

(** ** Real numbers and vectors *)

Lemma Rltb_true (a b : R) : a < b -> Rltb a b = true.
Proof. intros H. unfold Rltb. destruct (Rlt_dec a b); [reflexivity | contradiction]. Qed.

Lemma Rltb_false (a b : R) : b <= a -> Rltb a b = false.
Proof. intros H. unfold Rltb. destruct (Rlt_dec a b); [lra | reflexivity]. Qed.

Lemma Rltb_spec (a b : R) : Rltb a b = true <-> a < b.
Proof.
  unfold Rltb. destruct (Rlt_dec a b); split; intros; auto; discriminate || contradiction.
Qed.

Lemma Rltb_spec_false (a b : R) : Rltb a b = false <-> b <= a.
Proof.
  unfold Rltb. destruct (Rlt_dec a b); split; intros; auto; try discriminate; lra.
Qed.

Lemma Rgtb_true (a b : R) : a > b -> Rgtb a b = true.
Proof. intros H. apply Rltb_true. lra. Qed.

Lemma Rgtb_false (a b : R) : a <= b -> Rgtb a b = false.
Proof. intros H. apply Rltb_false. lra. Qed.

Lemma Rgtb_spec (a b : R) : Rgtb a b = true <-> a > b.
Proof. unfold Rgtb. rewrite Rltb_spec. lra. Qed.

Lemma Rgtb_spec_false (a b : R) : Rgtb a b = false <-> a <= b.
Proof. unfold Rgtb. rewrite Rltb_spec_false. lra. Qed.

Lemma sum_squares_nonneg (a b : R) : 0 <= a * a + b * b.
Proof. nra. Qed.

Lemma length_nonneg (u : Vector2) : 0 <= pygame.length u.
Proof. apply sqrt_pos. Qed.

Lemma length_square (u : Vector2) :
  pygame.length u * pygame.length u = pygame.x u * pygame.x u + pygame.y u * pygame.y u.
Proof. unfold pygame.length. apply sqrt_sqrt, sum_squares_nonneg. Qed.

(** The length is the non-negative root of the sum of squares. *)
Lemma length_eq (u : Vector2) (l : R) :
  0 <= l -> l * l = pygame.x u * pygame.x u + pygame.y u * pygame.y u ->
  pygame.length u = l.
Proof.
  intros Hl Hsq. unfold pygame.length.
  apply sqrt_lem_1; [apply sum_squares_nonneg | exact Hl | exact Hsq].
Qed.

Lemma length_zero : pygame.length pygame.zero = 0.
Proof. apply length_eq; simpl; lra. Qed.

Lemma length_zero_inv (u : Vector2) : pygame.length u = 0 -> u = pygame.zero.
Proof.
  intros H. pose proof (length_square u) as Hsq. rewrite H in Hsq.
  destruct u as [a b]; simpl in *. unfold pygame.zero.
  assert (a = 0) by nra. assert (b = 0) by nra. subst. reflexivity.
Qed.

Lemma distance_to_length (u v : Vector2) :
  pygame.distance_to u v = pygame.length (v - u)%V.
Proof. reflexivity. Qed.

Lemma distance_to_eq (u v : Vector2) (d : R) :
  0 <= d ->
  d * d = (pygame.x v - pygame.x u) * (pygame.x v - pygame.x u)
          + (pygame.y v - pygame.y u) * (pygame.y v - pygame.y u) ->
  pygame.distance_to u v = d.
Proof. intros. rewrite distance_to_length. apply length_eq; simpl; assumption. Qed.

Lemma distance_to_sym (u v : Vector2) : pygame.distance_to u v = pygame.distance_to v u.
Proof. unfold pygame.distance_to. f_equal. ring. Qed.

Lemma normalize_Ok (u : Vector2) :
  pygame.length u <> 0 -> pygame.normalize u = Ok (u / pygame.length u)%V.
Proof.
  intros H. unfold pygame.normalize.
  destruct (Req_dec_T (pygame.length u) 0); [contradiction | reflexivity].
Qed.

Lemma normalize_Raise (u : Vector2) :
  pygame.length u = 0 -> pygame.normalize u = Raise ValueError.
Proof.
  intros H. unfold pygame.normalize.
  destruct (Req_dec_T (pygame.length u) 0); [reflexivity | contradiction].
Qed.

Lemma normalize_inv (u n : Vector2) :
  pygame.normalize u = Ok n -> pygame.length u <> 0 /\ n = (u / pygame.length u)%V.
Proof.
  unfold pygame.normalize.
  destruct (Req_dec_T (pygame.length u) 0); intros H; [discriminate|].
  inversion H. split; [assumption | reflexivity].
Qed.

Lemma normalize_zero_inv (u : Vector2) (e : exn) :
  pygame.normalize u = Raise e -> e = ValueError /\ pygame.length u = 0.
Proof.
  unfold pygame.normalize.
  destruct (Req_dec_T (pygame.length u) 0); intros H; [|discriminate].
  inversion H. split; [reflexivity | assumption].
Qed.

(** A normalized vector scaled by [k >= 0] has length exactly [k]. *)
Lemma length_normalize_mul (u n : Vector2) (k : R) :
  0 <= k -> pygame.normalize u = Ok n -> pygame.length (n * k) = k.
Proof.
  intros Hk Hn. apply normalize_inv in Hn. destruct Hn as [Hl ->].
  pose proof (length_square u) as Hsq.
  apply length_eq; [exact Hk|]. simpl.
  set (l := pygame.length u) in *.
  replace (pygame.x u / l * k * (pygame.x u / l * k)
           + pygame.y u / l * k * (pygame.y u / l * k))
    with (k * k * ((pygame.x u * pygame.x u + pygame.y u * pygame.y u) / (l * l)))
    by (field; exact Hl).
  rewrite <- Hsq. field. exact Hl.
Qed.

(** The clamp that ends every behaviour and the speed limit of [update]:
    a vector longer than [k] is replaced by its direction times [k]. *)
Lemma normalize_mul_direction (u n : Vector2) (k : R) :
  pygame.normalize u = Ok n -> (n * k)%V = (u * (k / pygame.length u))%V.
Proof.
  intros Hn. apply normalize_inv in Hn. destruct Hn as [Hl ->].
  unfold pygame.mul, pygame.div. simpl. f_equal; field; exact Hl.
Qed.

(** ** The shared list *)

Lemma replace_nth_length (i : nat) (f : Boid -> Boid) (boids : list Boid) :
  List.length (replace_nth i f boids) = List.length boids.
Proof.
  revert i. induction boids as [|b rest IH]; intros [|i]; simpl; auto.
Qed.

Lemma nth_error_replace_nth_eq (i : nat) (f : Boid -> Boid) (boids : list Boid) (b : Boid) :
  nth_error boids i = Some b -> nth_error (replace_nth i f boids) i = Some (f b).
Proof.
  revert i. induction boids as [|b0 rest IH]; intros [|i]; simpl; try discriminate.
  - intros H. inversion H. reflexivity.
  - apply IH.
Qed.

Lemma nth_error_replace_nth_neq (i j : nat) (f : Boid -> Boid) (boids : list Boid) :
  j <> i -> nth_error (replace_nth i f boids) j = nth_error boids j.
Proof.
  revert i j. induction boids as [|b0 rest IH]; intros [|i] [|j] H; simpl; auto.
  congruence.
Qed.

Lemma replace_nth_twice (i : nat) (f g : Boid -> Boid) (boids : list Boid) :
  replace_nth i g (replace_nth i f boids) = replace_nth i (fun b => g (f b)) boids.
Proof.
  revert i. induction boids as [|b0 rest IH]; intros [|i]; simpl; auto.
  f_equal. apply IH.
Qed.

Lemma replace_nth_ext (i : nat) (f g : Boid -> Boid) (boids : list Boid) (b : Boid) :
  nth_error boids i = Some b -> f b = g b -> replace_nth i f boids = replace_nth i g boids.
Proof.
  revert i. induction boids as [|b0 rest IH]; intros [|i]; simpl; try discriminate.
  - intros H E. inversion H. subst. rewrite E. reflexivity.
  - intros H E. f_equal. apply IH; assumption.
Qed.

Lemma replace_nth_same (i : nat) (f : Boid -> Boid) (boids : list Boid) (b : Boid) :
  nth_error boids i = Some b -> f b = b -> replace_nth i f boids = boids.
Proof.
  revert i. induction boids as [|b0 rest IH]; intros [|i]; simpl; try discriminate.
  - intros H E. inversion H. subst. rewrite E. reflexivity.
  - intros H E. f_equal. apply IH; assumption.
Qed.

(** Two lists with the same entries at every index are equal. *)
Lemma nth_error_ext (l1 l2 : list Boid) :
  (forall j, nth_error l1 j = nth_error l2 j) -> l1 = l2.
Proof.
  revert l2. induction l1 as [|a l1 IH]; intros [|b l2] H.
  - reflexivity.
  - specialize (H 0%nat). discriminate.
  - specialize (H 0%nat). discriminate.
  - f_equal.
    + specialize (H 0%nat). simpl in H. congruence.
    + apply IH. intros j. exact (H (S j)).
Qed.

(** ** Running the monad *)

Lemma bind_Ok {A B} (m : M A) (k : A -> M B) (boids boids' : list Boid) (a : A) :
  m boids = Ok (a, boids') -> bind m k boids = k a boids'.
Proof. intros H. unfold bind. rewrite H. reflexivity. Qed.

Lemma bind_Raise {A B} (m : M A) (k : A -> M B) (boids : list Boid) (e : exn) :
  m boids = Raise e -> bind m k boids = Raise e.
Proof. intros H. unfold bind. rewrite H. reflexivity. Qed.

Lemma bind_Ok_inv {A B} (m : M A) (k : A -> M B) (boids boids'' : list Boid) (b : B) :
  bind m k boids = Ok (b, boids'') ->
  exists a boids', m boids = Ok (a, boids') /\ k a boids' = Ok (b, boids'').
Proof.
  unfold bind. destruct (m boids) as [[a boids']|e]; intros H; [|discriminate].
  exists a, boids'. split; [reflexivity | exact H].
Qed.

Lemma bind_Raise_inv {A B} (m : M A) (k : A -> M B) (boids : list Boid) (e : exn) :
  bind m k boids = Raise e ->
  m boids = Raise e \/ exists a boids', m boids = Ok (a, boids') /\ k a boids' = Raise e.
Proof.
  unfold bind. destruct (m boids) as [[a boids']|e']; intros H.
  - right. exists a, boids'. split; [reflexivity | exact H].
  - left. inversion H. reflexivity.
Qed.

Lemma lift_Ok_inv {A} (r : result A) (boids boids' : list Boid) (a : A) :
  lift r boids = Ok (a, boids') -> r = Ok a /\ boids' = boids.
Proof.
  unfold lift. destruct r; intros H; [|discriminate]. inversion H. auto.
Qed.

Lemma get_attr_Ok {A} (attr : Boid -> A) (i : nat) (boids : list Boid) (b : Boid) :
  nth_error boids i = Some b -> get_attr attr i boids = Ok (attr b, boids).
Proof. intros H. unfold get_attr. rewrite H. reflexivity. Qed.

Lemma set_attr_Ok (upd : Boid -> Boid) (i : nat) (boids : list Boid) (b : Boid) :
  nth_error boids i = Some b -> set_attr upd i boids = Ok (tt, replace_nth i upd boids).
Proof. intros H. unfold set_attr. rewrite H. reflexivity. Qed.

Lemma get_attr_Ok_inv {A} (attr : Boid -> A) (i : nat) (boids boids' : list Boid) (a : A) :
  get_attr attr i boids = Ok (a, boids') ->
  exists b, nth_error boids i = Some b /\ a = attr b /\ boids' = boids.
Proof.
  unfold get_attr. destruct (nth_error boids i) as [b|]; intros H; [|discriminate].
  inversion H. exists b. auto.
Qed.

Lemma set_attr_Ok_inv (upd : Boid -> Boid) (i : nat) (boids boids' : list Boid) (u : unit) :
  set_attr upd i boids = Ok (u, boids') ->
  exists b, nth_error boids i = Some b /\ boids' = replace_nth i upd boids.
Proof.
  unfold set_attr. destruct (nth_error boids i) as [b|]; intros H; [|discriminate].
  inversion H. exists b. auto.
Qed.

(** Symbolic execution of a method body on a list in which the object
    at [self] is known: reads and writes of attributes are run one
    after the other. *)
Lemma run_get {A B} (attr : Boid -> A) (i : nat) (k : A -> M B) (boids : list Boid) (b : Boid) :
  nth_error boids i = Some b -> bind (get_attr attr i) k boids = k (attr b) boids.
Proof. intros H. apply bind_Ok, get_attr_Ok, H. Qed.

Lemma run_set {B} (upd : Boid -> Boid) (i : nat) (k : unit -> M B) (boids : list Boid) (b : Boid) :
  nth_error boids i = Some b ->
  bind (set_attr upd i) k boids = k tt (replace_nth i upd boids).
Proof. intros H. apply bind_Ok, set_attr_Ok with (b := b), H. Qed.

Lemma run_ret {A B} (a : A) (k : A -> M B) (boids : list Boid) :
  bind (ret a) k boids = k a boids.
Proof. reflexivity. Qed.

Lemma run_lift {A B} (r : result A) (a : A) (k : A -> M B) (boids : list Boid) :
  r = Ok a -> bind (lift r) k boids = k a boids.
Proof. intros ->. reflexivity. Qed.

Lemma bind_assoc {A B C} (m : M A) (k : A -> M B) (h : B -> M C) (boids : list Boid) :
  bind (bind m k) h boids = bind m (fun a => bind (k a) h) boids.
Proof. unfold bind. destruct (m boids) as [[a boids']|e]; reflexivity. Qed.

Ltac unfold_attrs :=
  unfold get_position, get_velocity, get_acceleration,
         set_position, set_velocity, set_acceleration in *.

(** One step of symbolic execution; a write records what the object at
    the index has become. *)
Ltac run_step :=
  match goal with
  | |- context [bind (ret ?a) ?k ?st] => rewrite (run_ret a k st)
  | H : nth_error ?st ?i = Some ?b |- context [bind (get_attr ?f ?i) ?k ?st] =>
      rewrite (run_get f i k st b H)
  | H : nth_error ?st ?i = Some ?b |- context [bind (set_attr ?u ?i) ?k ?st] =>
      rewrite (run_set u i k st b H);
      pose proof (nth_error_replace_nth_eq i u st b H)
  | H : nth_error ?st ?i = Some ?b |- context [get_attr ?f ?i ?st] =>
      rewrite (get_attr_Ok f i st b H)
  | H : nth_error ?st ?i = Some ?b |- context [set_attr ?u ?i ?st] =>
      rewrite (set_attr_Ok u i st b H);
      pose proof (nth_error_replace_nth_eq i u st b H)
  end.

Ltac run := unfold_attrs; repeat run_step.

(** ** Boid.update *)

Lemma MAX_SPEED_pos : 0 < MAX_SPEED.
Proof. unfold MAX_SPEED. lra. Qed.

Lemma MAX_FORCE_pos : 0 < MAX_FORCE.
Proof. unfold MAX_FORCE. lra. Qed.

Lemma limited_length (v : Vector2) : pygame.length (limited v) <= MAX_SPEED.
Proof.
  unfold limited. destruct (Rgtb (pygame.length v) MAX_SPEED) eqn:E.
  - apply Rgtb_spec in E.
    assert (Hn : pygame.normalize v = Ok (v / pygame.length v)%V).
    { apply normalize_Ok. pose proof MAX_SPEED_pos. lra. }
    rewrite (length_normalize_mul v _ MAX_SPEED); [lra | pose proof MAX_SPEED_pos; lra | exact Hn].
  - apply Rgtb_spec_false in E. exact E.
Qed.

(** [update] never raises when the boid exists, and its whole effect is
    on the boid itself. *)
Lemma update_run (boids : list Boid) (self : nat) (b : Boid) (dt : R) :
  nth_error boids self = Some b ->
  let v' := limited (velocity b + acceleration b * dt) in
  update self dt boids
  = Ok (tt, replace_nth self
              (fun _ => mkBoid (position b + v' * dt) v' (acceleration b * 0)
                          (life_history b)) boids).
Proof.
  intros Hb v'. unfold update. run. simpl in *.
  set (v1 := (velocity b + acceleration b * dt)%V) in *.
  assert (Hlim :
    forall (k : unit -> M unit),
      bind (if Rgtb (pygame.length v1) MAX_SPEED
            then bind (lift (pygame.normalize v1))
                   (fun n => set_attr (fun b0 => with_velocity b0 (n * MAX_SPEED)) self)
            else ret tt) k
        (replace_nth self (fun b0 => with_velocity b0 v1) boids)
      = k tt (replace_nth self (fun b0 => with_velocity b0 v') boids)).
  { intros k. subst v'. unfold limited. fold v1.
    destruct (Rgtb (pygame.length v1) MAX_SPEED) eqn:E.
    - apply Rgtb_spec in E.
      rewrite bind_assoc.
      rewrite (run_lift _ (v1 / pygame.length v1)%V)
        by (apply normalize_Ok; pose proof MAX_SPEED_pos; lra).
      run. rewrite replace_nth_twice. reflexivity.
    - rewrite run_ret. reflexivity. }
  rewrite Hlim.
  assert (Hv' : nth_error (replace_nth self (fun b0 => with_velocity b0 v') boids) self
                = Some (with_velocity b v'))
    by exact (nth_error_replace_nth_eq self (fun b0 => with_velocity b0 v') boids b Hb).
  run. rewrite !replace_nth_twice.
  do 2 f_equal. apply (replace_nth_ext _ _ _ _ b Hb). reflexivity.
Qed.

Lemma mul_zero (a : Vector2) : (a * 0)%V = pygame.zero.
Proof. unfold pygame.mul, pygame.zero. f_equal; ring. Qed.

(** C3: for every boid state and every [dt], [update] returns, the new
    velocity [v'] has length at most [MAX_SPEED]; when the velocity plus
    acceleration times [dt] is longer than [MAX_SPEED] it is rescaled to
    length exactly [MAX_SPEED] by a positive factor (same direction);
    the position advances by the limited velocity times [dt]; the
    acceleration ends as the zero vector.  Nothing else in the list
    changes. *)
Theorem update_limits_speed (boids : list Boid) (self : nat) (b : Boid) (dt : R) :
  nth_error boids self = Some b ->
  exists v' : Vector2,
    update self dt boids
    = Ok (tt, replace_nth self
                (fun _ => mkBoid (position b + v' * dt) v' pygame.zero (life_history b))
                boids)
    /\ pygame.length v' <= MAX_SPEED
    /\ (pygame.length (velocity b + acceleration b * dt) > MAX_SPEED ->
        pygame.length v' = MAX_SPEED
        /\ exists c : R, 0 < c /\ v' = ((velocity b + acceleration b * dt) * c)%V)
    /\ (pygame.length (velocity b + acceleration b * dt) <= MAX_SPEED ->
        v' = (velocity b + acceleration b * dt)%V).
Proof.
  intros Hb. exists (limited (velocity b + acceleration b * dt)).
  split; [|split; [|split]].
  - rewrite (update_run boids self b dt Hb). cbv zeta. rewrite mul_zero. reflexivity.
  - apply limited_length.
  - intros Hgt. unfold limited. rewrite (Rgtb_true _ _ Hgt).
    set (v1 := (velocity b + acceleration b * dt)%V) in *.
    assert (Hn : pygame.normalize v1 = Ok (v1 / pygame.length v1)%V).
    { apply normalize_Ok. pose proof MAX_SPEED_pos. lra. }
    split.
    + apply (length_normalize_mul v1); [pose proof MAX_SPEED_pos; lra | exact Hn].
    + exists (MAX_SPEED / pygame.length v1). split.
      * apply Rdiv_lt_0_compat; pose proof MAX_SPEED_pos; lra.
      * apply normalize_mul_direction. exact Hn.
  - intros Hle. unfold limited. rewrite (Rgtb_false _ _ Hle). reflexivity.
Qed.

Lemma update_limits_speed_witness :
  nth_error [resting_boid] 0 = Some resting_boid
  /\ exists v' : Vector2,
       update 0 1 [resting_boid]
       = Ok (tt, replace_nth 0
                   (fun _ => mkBoid (position resting_boid + v' * 1) v' pygame.zero
                               (life_history resting_boid))
                   [resting_boid])
       /\ pygame.length v' <= MAX_SPEED
       /\ (pygame.length (velocity resting_boid + acceleration resting_boid * 1) > MAX_SPEED ->
           pygame.length v' = MAX_SPEED
           /\ exists c : R, 0 < c
                /\ v' = ((velocity resting_boid + acceleration resting_boid * 1) * c)%V)
       /\ (pygame.length (velocity resting_boid + acceleration resting_boid * 1) <= MAX_SPEED ->
           v' = (velocity resting_boid + acceleration resting_boid * 1)%V).
Proof.
  split; [reflexivity | apply (update_limits_speed [resting_boid] 0 resting_boid 1); reflexivity].
Defined.

(** ** Boid.edges *)

Lemma edges_run (boids : list Boid) (self : nat) (b : Boid) :
  nth_error boids self = Some b ->
  edges self boids
  = Ok (tt, replace_nth self
              (fun _ => with_position b
                          (pygame.mkVector2 (wrap WIDTH (pygame.x (position b)))
                                            (wrap HEIGHT (pygame.y (position b)))))
              boids).
Proof.
  intros Hb. unfold edges. run. simpl.
  set (p := position b) in *.
  assert (Hx :
    forall (k : unit -> M unit),
      bind (if Rgtb (pygame.x p) WIDTH
            then set_attr (fun b0 => with_position b0 (pygame.mkVector2 0 (pygame.y p))) self
            else if Rltb (pygame.x p) 0
            then set_attr (fun b0 => with_position b0 (pygame.mkVector2 WIDTH (pygame.y p))) self
            else ret tt) k boids
      = k tt (replace_nth self
                (fun b0 => with_position b0
                             (pygame.mkVector2 (wrap WIDTH (pygame.x p)) (pygame.y p)))
                boids)).
  { intros k. unfold wrap.
    destruct (Rgtb (pygame.x p) WIDTH); [|destruct (Rltb (pygame.x p) 0)].
    - run. reflexivity.
    - run. reflexivity.
    - rewrite run_ret. f_equal. symmetry.
      apply (replace_nth_same _ _ _ b Hb). subst p. destruct b as [[px py] v a h]. reflexivity. }
  rewrite Hx.
  pose proof (nth_error_replace_nth_eq self
                (fun b0 => with_position b0
                             (pygame.mkVector2 (wrap WIDTH (pygame.x p)) (pygame.y p)))
                boids b Hb) as Hb1.
  run. simpl.
  remember (wrap WIDTH (pygame.x p)) as wx eqn:Hwx. clear Hwx. unfold wrap.
  destruct (Rgtb (pygame.y p) HEIGHT); [|destruct (Rltb (pygame.y p) 0)].
  - run. rewrite replace_nth_twice. do 2 f_equal.
    apply (replace_nth_ext _ _ _ _ b Hb). reflexivity.
  - run. rewrite replace_nth_twice. do 2 f_equal.
    apply (replace_nth_ext _ _ _ _ b Hb). reflexivity.
  - unfold ret. do 2 f_equal. apply (replace_nth_ext _ _ _ _ b Hb). reflexivity.
Qed.

Lemma wrap_range (limit c : R) : 0 <= limit -> 0 <= wrap limit c <= limit.
Proof.
  intros Hl. unfold wrap.
  destruct (Rgtb c limit) eqn:E1; [lra|].
  destruct (Rltb c 0) eqn:E2; [lra|].
  apply Rgtb_spec_false in E1. apply Rltb_spec_false in E2. lra.
Qed.

Lemma WIDTH_pos : 0 < WIDTH.
Proof. unfold WIDTH. lra. Qed.

Lemma HEIGHT_pos : 0 < HEIGHT.
Proof. unfold HEIGHT. lra. Qed.

Lemma wrap_above (limit c : R) : c > limit -> wrap limit c = 0.
Proof. intros H. unfold wrap. rewrite (Rgtb_true _ _ H). reflexivity. Qed.

Lemma wrap_below (limit c : R) : 0 <= limit -> c < 0 -> wrap limit c = limit.
Proof.
  intros Hl H. unfold wrap. rewrite Rgtb_false by lra. rewrite Rltb_true by lra. reflexivity.
Qed.

Lemma wrap_inside (limit c : R) : 0 <= c <= limit -> wrap limit c = c.
Proof.
  intros H. unfold wrap. rewrite Rgtb_false by lra. rewrite Rltb_false by lra. reflexivity.
Qed.

(** C6: [edges] wraps around.  It returns, changes only the position of
    the boid (velocity, acceleration and every other boid are kept), and
    the new position [p'] has: [x] set to 0 when it exceeded [WIDTH],
    set to [WIDTH] when it was below 0 and kept otherwise; the same for
    [y] with [HEIGHT], each coordinate by its own rule.  In particular
    [x = WIDTH + eps] with [eps > 0] becomes [x = 0]. *)
Theorem edges_wraps_around (boids : list Boid) (self : nat) (b : Boid) :
  nth_error boids self = Some b ->
  exists p' : Vector2,
    edges self boids
    = Ok (tt, replace_nth self
                (fun _ => mkBoid p' (velocity b) (acceleration b) (life_history b)) boids)
    /\ (pygame.x (position b) > WIDTH -> pygame.x p' = 0)
    /\ (pygame.x (position b) < 0 -> pygame.x p' = WIDTH)
    /\ (0 <= pygame.x (position b) <= WIDTH -> pygame.x p' = pygame.x (position b))
    /\ (pygame.y (position b) > HEIGHT -> pygame.y p' = 0)
    /\ (pygame.y (position b) < 0 -> pygame.y p' = HEIGHT)
    /\ (0 <= pygame.y (position b) <= HEIGHT -> pygame.y p' = pygame.y (position b))
    /\ (forall eps : R, eps > 0 -> pygame.x (position b) = WIDTH + eps -> pygame.x p' = 0).
Proof.
  intros Hb.
  exists (pygame.mkVector2 (wrap WIDTH (pygame.x (position b)))
                           (wrap HEIGHT (pygame.y (position b)))).
  pose proof WIDTH_pos. pose proof HEIGHT_pos.
  repeat split; simpl.
  - apply (edges_run boids self b Hb).
  - apply wrap_above.
  - apply wrap_below. lra.
  - apply wrap_inside.
  - apply wrap_above.
  - apply wrap_below. lra.
  - apply wrap_inside.
  - intros eps Heps Hx. apply wrap_above. lra.
Qed.

Lemma edges_wraps_around_witness :
  nth_error [right_of_world] 0 = Some right_of_world
  /\ exists p' : Vector2,
       edges 0 [right_of_world]
       = Ok (tt, replace_nth 0
                   (fun _ => mkBoid p' (velocity right_of_world)
                               (acceleration right_of_world)
                               (life_history right_of_world)) [right_of_world])
       /\ (pygame.x (position right_of_world) > WIDTH -> pygame.x p' = 0)
       /\ (pygame.x (position right_of_world) < 0 -> pygame.x p' = WIDTH)
       /\ (0 <= pygame.x (position right_of_world) <= WIDTH ->
           pygame.x p' = pygame.x (position right_of_world))
       /\ (pygame.y (position right_of_world) > HEIGHT -> pygame.y p' = 0)
       /\ (pygame.y (position right_of_world) < 0 -> pygame.y p' = HEIGHT)
       /\ (0 <= pygame.y (position right_of_world) <= HEIGHT ->
           pygame.y p' = pygame.y (position right_of_world))
       /\ (forall eps : R, eps > 0 ->
           pygame.x (position right_of_world) = WIDTH + eps -> pygame.x p' = 0).
Proof.
  split; [reflexivity | apply (edges_wraps_around [right_of_world] 0 right_of_world); reflexivity].
Defined.

(** The boid beyond the right edge reappears at [x = 0]. *)
Example edges_right_of_world :
  edges 0 [right_of_world]
  = Ok (tt, [mkBoid (pygame.mkVector2 0 20) (pygame.mkVector2 3 0) (pygame.mkVector2 0 0) []]).
Proof.
  rewrite (edges_run [right_of_world] 0 right_of_world eq_refl). simpl.
  rewrite wrap_above by (unfold WIDTH; lra).
  rewrite wrap_inside by (unfold HEIGHT; lra). reflexivity.
Qed.

(** C5, as stated, fails: [edges] puts a boid that was left of the world
    (at [x = -1]) at [x = WIDTH], which is outside the half-open
    interval from 0 to [WIDTH]. *)
Lemma edges_half_open_counterexample :
  exists (boids' : list Boid) (b' : Boid),
    edges 0 [left_of_world] = Ok (tt, boids')
    /\ nth_error boids' 0 = Some b'
    /\ pygame.x (position b') = WIDTH
    /\ ~ (0 <= pygame.x (position b') < WIDTH /\ 0 <= pygame.y (position b') < HEIGHT).
Proof.
  exists [mkBoid (pygame.mkVector2 WIDTH 20) (pygame.mkVector2 (-3) 0)
            (pygame.mkVector2 0 0) []].
  eexists. split; [|split; [reflexivity|]].
  - rewrite (edges_run [left_of_world] 0 left_of_world eq_refl). simpl.
    rewrite wrap_below by (unfold WIDTH; lra).
    rewrite wrap_inside by (unfold HEIGHT; lra). reflexivity.
  - simpl. split; [reflexivity | lra].
Qed.

(** C5, amended: after [edges] the position lies in the closed rectangle
    [0, WIDTH] x [0, HEIGHT], whatever it was before. *)
Theorem edges_position_in_world (boids : list Boid) (self : nat) (b : Boid) :
  nth_error boids self = Some b ->
  exists (boids' : list Boid) (b' : Boid),
    edges self boids = Ok (tt, boids')
    /\ nth_error boids' self = Some b'
    /\ 0 <= pygame.x (position b') <= WIDTH
    /\ 0 <= pygame.y (position b') <= HEIGHT.
Proof.
  intros Hb. eexists. eexists. split; [apply (edges_run boids self b Hb)|]. split.
  - apply (nth_error_replace_nth_eq self _ boids b Hb).
  - simpl. split; apply wrap_range; [pose proof WIDTH_pos | pose proof HEIGHT_pos]; lra.
Qed.

Lemma edges_position_in_world_witness :
  nth_error [left_of_world] 0 = Some left_of_world
  /\ exists (boids' : list Boid) (b' : Boid),
       edges 0 [left_of_world] = Ok (tt, boids')
       /\ nth_error boids' 0 = Some b'
       /\ 0 <= pygame.x (position b') <= WIDTH
       /\ 0 <= pygame.y (position b') <= HEIGHT.
Proof.
  split; [reflexivity | apply (edges_position_in_world [left_of_world] 0 left_of_world); reflexivity].
Defined.

(** ** Methods that only read *)

Lemma read_only_ret {A} (a : A) : read_only (ret a).
Proof. intros boids boids' a' H. inversion H. reflexivity. Qed.

Lemma read_only_lift {A} (r : result A) : read_only (lift r).
Proof. intros boids boids' a H. apply lift_Ok_inv in H. apply H. Qed.

Lemma read_only_get_attr {A} (attr : Boid -> A) (i : nat) : read_only (get_attr attr i).
Proof.
  intros boids boids' a H. apply get_attr_Ok_inv in H.
  destruct H as (b & _ & _ & H). exact H.
Qed.

Lemma read_only_len : read_only len.
Proof. intros boids boids' a H. inversion H. reflexivity. Qed.

Lemma read_only_bind {A B} (m : M A) (k : A -> M B) :
  read_only m -> (forall a, read_only (k a)) -> read_only (bind m k).
Proof.
  intros Hm Hk boids boids'' b H.
  apply bind_Ok_inv in H. destruct H as (a & boids' & H1 & H2).
  apply Hm in H1. subst boids'. exact (Hk a _ _ _ H2).
Qed.

Lemma read_only_for_range {A} (js : list nat) (body : nat -> A -> M A) :
  (forall j acc, read_only (body j acc)) -> forall acc, read_only (for_range js body acc).
Proof.
  intros Hbody. induction js as [|j js IH]; intros acc; simpl.
  - apply read_only_ret.
  - apply read_only_bind; [apply Hbody | exact IH].
Qed.

Lemma read_only_for_boids {A} (body : nat -> A -> M A) (acc : A) :
  (forall j acc', read_only (body j acc')) -> read_only (for_boids body acc).
Proof.
  intros Hbody. unfold for_boids.
  apply read_only_bind; [apply read_only_len | intros n; apply read_only_for_range, Hbody].
Qed.

(** Decomposition of a method body into reads: binds, loops, branches
    and loop variables. *)
Ltac read_only_tac :=
  unfold_attrs;
  repeat first
    [ apply read_only_ret
    | apply read_only_lift
    | apply read_only_get_attr
    | apply read_only_len
    | apply read_only_for_boids; intros ? [? ?]
    | apply read_only_bind; [ | intros ? ]
    | match goal with
      | |- read_only (if ?c then _ else _) => destruct c
      | |- read_only (match ?p with (_, _) => _ end) => destruct p
      end
    | progress cbv zeta ].

Lemma align_read_only (self : nat) : read_only (align self).
Proof. unfold align. read_only_tac. Qed.

Lemma cohesion_read_only (self : nat) : read_only (cohesion self).
Proof. unfold cohesion. read_only_tac. Qed.

Lemma separation_read_only (self : nat) : read_only (separation self).
Proof. unfold separation. read_only_tac. Qed.

Lemma react_to_mouse_read_only (self : nat) (mouse_pos : Vector2) (is_attracted : bool) :
  read_only (react_to_mouse self mouse_pos is_attracted).
Proof. unfold react_to_mouse. read_only_tac. Qed.

(** ** Boid.apply_behavior *)

(** The four additions to [self.acceleration], run on a list in which
    [self] is [b]. *)
Lemma accumulate_run (boids : list Boid) (self : nat) (b : Boid) (f1 f2 f3 f4 : Vector2) :
  nth_error boids self = Some b ->
  (a <- get_acceleration self ;; set_acceleration self (a + f1) ;;;
   a <- get_acceleration self ;; set_acceleration self (a + f2) ;;;
   a <- get_acceleration self ;; set_acceleration self (a + f3) ;;;
   a <- get_acceleration self ;; set_acceleration self (a + f4)) boids
  = Ok (tt, replace_nth self
              (fun _ => with_acceleration b (acceleration b + f1 + f2 + f3 + f4)) boids).
Proof.
  intros Hb. run. simpl. rewrite !replace_nth_twice.
  do 2 f_equal. apply (replace_nth_ext _ _ _ _ b Hb). reflexivity.
Qed.

Lemma apply_behavior_run (boids : list Boid) (self : nat) (b : Boid)
    (mouse_pos : Vector2) (is_attracted : bool) (f1 f2 f3 f4 : Vector2) :
  nth_error boids self = Some b ->
  align self boids = Ok (f1, boids) ->
  cohesion self boids = Ok (f2, boids) ->
  separation self boids = Ok (f3, boids) ->
  react_to_mouse self mouse_pos is_attracted boids = Ok (f4, boids) ->
  apply_behavior self mouse_pos is_attracted boids
  = Ok (tt, replace_nth self
              (fun _ => with_acceleration b (acceleration b + f1 + f2 + f3 + f4)) boids).
Proof.
  intros Hb H1 H2 H3 H4. unfold apply_behavior.
  rewrite (bind_Ok _ _ _ _ _ H1), (bind_Ok _ _ _ _ _ H2),
          (bind_Ok _ _ _ _ _ H3), (bind_Ok _ _ _ _ _ H4).
  apply accumulate_run, Hb.
Qed.

Lemma apply_behavior_Ok_inv (boids boids' : list Boid) (self : nat)
    (mouse_pos : Vector2) (is_attracted : bool) (u : unit) :
  apply_behavior self mouse_pos is_attracted boids = Ok (u, boids') ->
  exists (b : Boid) (f1 f2 f3 f4 : Vector2),
    nth_error boids self = Some b
    /\ align self boids = Ok (f1, boids)
    /\ cohesion self boids = Ok (f2, boids)
    /\ separation self boids = Ok (f3, boids)
    /\ react_to_mouse self mouse_pos is_attracted boids = Ok (f4, boids)
    /\ boids' = replace_nth self
                  (fun _ => with_acceleration b (acceleration b + f1 + f2 + f3 + f4)) boids.
Proof.
  intros H. unfold apply_behavior in H.
  apply bind_Ok_inv in H. destruct H as (f1 & s1 & H1 & H).
  pose proof (align_read_only self _ _ _ H1). subst s1.
  apply bind_Ok_inv in H. destruct H as (f2 & s2 & H2 & H).
  pose proof (cohesion_read_only self _ _ _ H2). subst s2.
  apply bind_Ok_inv in H. destruct H as (f3 & s3 & H3 & H).
  pose proof (separation_read_only self _ _ _ H3). subst s3.
  apply bind_Ok_inv in H. destruct H as (f4 & s4 & H4 & H).
  pose proof (react_to_mouse_read_only self _ _ _ _ _ H4). subst s4.
  destruct (nth_error boids self) as [b|] eqn:Hb.
  - exists b, f1, f2, f3, f4. repeat split; try assumption.
    rewrite (accumulate_run boids self b f1 f2 f3 f4 Hb) in H. congruence.
  - unfold get_acceleration in H. unfold bind at 1 in H. unfold get_attr in H.
    rewrite Hb in H. discriminate.
Qed.

(** C10: the four behaviours only read: whenever one of them returns,
    the list of boids (every position, velocity and acceleration, the
    acting boid included) is as before the call.  [apply_behavior]
    changes nothing but the acceleration of the acting boid, to which
    the four returned forces are added one after the other. *)
Theorem behaviours_only_read (boids : list Boid) (self : nat)
    (mouse_pos : Vector2) (is_attracted : bool) :
  (forall f boids', align self boids = Ok (f, boids') -> boids' = boids)
  /\ (forall f boids', cohesion self boids = Ok (f, boids') -> boids' = boids)
  /\ (forall f boids', separation self boids = Ok (f, boids') -> boids' = boids)
  /\ (forall f boids',
        react_to_mouse self mouse_pos is_attracted boids = Ok (f, boids') -> boids' = boids)
  /\ (forall boids',
        apply_behavior self mouse_pos is_attracted boids = Ok (tt, boids') ->
        exists (b : Boid) (alignment cohesion_ separation_ mouse_reaction : Vector2),
          nth_error boids self = Some b
          /\ align self boids = Ok (alignment, boids)
          /\ cohesion self boids = Ok (cohesion_, boids)
          /\ separation self boids = Ok (separation_, boids)
          /\ react_to_mouse self mouse_pos is_attracted boids = Ok (mouse_reaction, boids)
          /\ boids'
             = replace_nth self
                 (fun _ => mkBoid (position b) (velocity b)
                             (acceleration b + alignment + cohesion_ + separation_
                              + mouse_reaction)
                             (life_history b))
                 boids).
Proof.
  repeat split.
  - intros f boids' H. exact (align_read_only self _ _ _ H).
  - intros f boids' H. exact (cohesion_read_only self _ _ _ H).
  - intros f boids' H. exact (separation_read_only self _ _ _ H).
  - intros f boids' H. exact (react_to_mouse_read_only self _ _ _ _ _ H).
  - intros boids' H. exact (apply_behavior_Ok_inv _ _ _ _ _ _ H).
Qed.

(** ** The loops of the behaviours *)

(** A loop whose body only computes, on a list it does not change. *)
Lemma for_range_pure {A} (js : list nat) (body : nat -> A -> M A) (g : A -> nat -> A)
    (boids : list Boid) :
  (forall j acc, In j js -> body j acc boids = Ok (g acc j, boids)) ->
  forall acc, for_range js body acc boids = Ok (fold_left g js acc, boids).
Proof.
  induction js as [|j js IH]; intros Hbody acc; simpl.
  - reflexivity.
  - rewrite (bind_Ok _ _ _ _ _ (Hbody j acc (or_introl eq_refl))).
    apply IH. intros j' acc' Hin. apply Hbody. right. exact Hin.
Qed.

Lemma for_boids_pure {A} (body : nat -> A -> M A) (g : A -> nat -> A)
    (boids : list Boid) (acc : A) :
  (forall j acc' boid, nth_error boids j = Some boid -> body j acc' boids = Ok (g acc' j, boids)) ->
  for_boids body acc boids = Ok (fold_left g (seq 0 (List.length boids)) acc, boids).
Proof.
  intros Hbody. unfold for_boids.
  rewrite (bind_Ok len _ boids boids (List.length boids) eq_refl).
  apply for_range_pure. intros j acc' Hin.
  apply in_seq in Hin.
  destruct (nth_error boids j) as [boid|] eqn:Hj.
  - exact (Hbody j acc' boid Hj).
  - apply nth_error_None in Hj. lia.
Qed.

Lemma qualifies_distance_pos (radius : R) (self : nat) (s : Boid) (j : nat) (boid : Boid) :
  qualifies radius self s j boid = true ->
  j <> self
  /\ 0 < pygame.distance_to (position s) (position boid) < radius.
Proof.
  unfold qualifies. cbv zeta. intros H.
  apply andb_true_iff in H. destruct H as [H H3].
  apply andb_true_iff in H. destruct H as [H1 H2].
  apply negb_true_iff, Nat.eqb_neq in H1.
  apply Rltb_spec in H2. apply Rgtb_spec in H3. repeat split; [exact H1 | lra | lra].
Qed.

Lemma clamp_run (steering : Vector2) (boids : list Boid) :
  (if Rgtb (pygame.length steering) MAX_FORCE
   then n <- lift (pygame.normalize steering) ;; ret (n * MAX_FORCE)%V
   else ret steering) boids
  = Ok (clamp_force steering, boids).
Proof.
  unfold clamp_force. destruct (Rgtb (pygame.length steering) MAX_FORCE) eqn:E.
  - apply Rgtb_spec in E.
    rewrite (run_lift _ (steering / pygame.length steering)%V)
      by (apply normalize_Ok; pose proof MAX_FORCE_pos; lra).
    reflexivity.
  - reflexivity.
Qed.

Lemma steer_run (desired : Vector2) (self : nat) (s : Boid) (boids : list Boid) :
  nth_error boids self = Some s ->
  (n <- lift (pygame.normalize desired) ;;
   let steering := (n * MAX_SPEED)%V in
   v <- get_velocity self ;;
   let steering := (steering - v)%V in
   if Rgtb (pygame.length steering) MAX_FORCE
   then n <- lift (pygame.normalize steering) ;; ret (n * MAX_FORCE)%V
   else ret steering) boids
  = lift (steer desired (velocity s)) boids.
Proof.
  intros Hs. unfold steer.
  destruct (pygame.normalize desired) as [n|e] eqn:En.
  - rewrite (run_lift _ n) by reflexivity. cbv zeta. run.
    rewrite clamp_run. reflexivity.
  - reflexivity.
Qed.

Lemma align_run (boids : list Boid) (self : nat) (s : Boid) :
  nth_error boids self = Some s ->
  align self boids
  = let (steering, total) := scan PERCEPTION align_term boids self s in
    if (0 <? total)%nat
    then lift (steer (steering / INR total) (velocity s)) boids
    else Ok (steering, boids).
Proof.
  intros Hs. unfold align.
  erewrite bind_Ok.
  2:{ apply for_boids_pure with (g := gather PERCEPTION align_term boids self s).
      intros j [steering total] boid Hj. run.
      unfold gather. rewrite Hj. unfold qualifies. cbv zeta.
      destruct (negb (j =? self)%nat && Rltb _ PERCEPTION && Rgtb _ 0).
      - run. reflexivity.
      - reflexivity. }
  fold (scan PERCEPTION align_term boids self s).
  destruct (scan PERCEPTION align_term boids self s) as [steering total].
  destruct (0 <? total)%nat; [|reflexivity].
  cbv zeta. apply steer_run. exact Hs.
Qed.

Lemma cohesion_run (boids : list Boid) (self : nat) (s : Boid) :
  nth_error boids self = Some s ->
  cohesion self boids
  = let (steering, total) := scan PERCEPTION cohesion_term boids self s in
    if (0 <? total)%nat
    then lift (steer (steering / INR total - position s) (velocity s)) boids
    else Ok (steering, boids).
Proof.
  intros Hs. unfold cohesion.
  erewrite bind_Ok.
  2:{ apply for_boids_pure with (g := gather PERCEPTION cohesion_term boids self s).
      intros j [steering total] boid Hj. run.
      unfold gather. rewrite Hj. unfold qualifies. cbv zeta.
      destruct (negb (j =? self)%nat && Rltb _ PERCEPTION && Rgtb _ 0).
      - run. reflexivity.
      - reflexivity. }
  fold (scan PERCEPTION cohesion_term boids self s).
  destruct (scan PERCEPTION cohesion_term boids self s) as [steering total].
  destruct (0 <? total)%nat; [|reflexivity].
  cbv zeta. run. apply steer_run. exact Hs.
Qed.

Lemma separation_run (boids : list Boid) (self : nat) (s : Boid) :
  nth_error boids self = Some s ->
  separation self boids
  = let (steering, total) := scan SEPARATION separation_term boids self s in
    if (0 <? total)%nat
    then lift (steer (steering / INR total) (velocity s)) boids
    else Ok (steering, boids).
Proof.
  intros Hs. unfold separation.
  erewrite bind_Ok.
  2:{ apply for_boids_pure with (g := gather SEPARATION separation_term boids self s).
      intros j [steering total] boid Hj. run.
      unfold gather. rewrite Hj.
      destruct (qualifies SEPARATION self s j boid) eqn:Eq.
      - pose proof (qualifies_distance_pos _ _ _ _ _ Eq) as [_ Hd].
        unfold qualifies in Eq. cbv zeta in Eq. rewrite Eq. run.
        rewrite (run_lift _ ((position s - position boid)
                             / pygame.length (position s - position boid))%V).
        + reflexivity.
        + apply normalize_Ok. rewrite <- distance_to_length, distance_to_sym. lra.
      - unfold qualifies in Eq. cbv zeta in Eq. rewrite Eq. reflexivity. }
  fold (scan SEPARATION separation_term boids self s).
  destruct (scan SEPARATION separation_term boids self s) as [steering total].
  destruct (0 <? total)%nat; [|reflexivity].
  cbv zeta. apply steer_run. exact Hs.
Qed.

Lemma react_to_mouse_run (boids : list Boid) (self : nat) (s : Boid)
    (mouse_pos : Vector2) (is_attracted : bool) :
  nth_error boids self = Some s ->
  react_to_mouse self mouse_pos is_attracted boids
  = Ok (mouse_force s mouse_pos is_attracted, boids).
Proof.
  intros Hs. unfold react_to_mouse, mouse_force. cbv zeta. run.
  destruct (Rltb (pygame.distance_to (position s) mouse_pos) MOUSE_PERCEPTION) eqn:E1;
    [|reflexivity].
  destruct (Rgtb (pygame.distance_to (position s) mouse_pos) 0) eqn:E2; [|reflexivity].
  cbn [andb]. run. apply Rgtb_spec in E2.
  rewrite (run_lift _ ((mouse_pos - position s)
                       / pygame.length (mouse_pos - position s))%V).
  - apply clamp_run.
  - apply normalize_Ok. rewrite <- distance_to_length. lra.
Qed.

(** ** The bound on the forces *)

Lemma clamp_force_length (steering : Vector2) :
  pygame.length (clamp_force steering) <= MAX_FORCE.
Proof.
  unfold clamp_force. destruct (Rgtb (pygame.length steering) MAX_FORCE) eqn:E.
  - apply Rgtb_spec in E.
    assert (Hn : pygame.normalize steering = Ok (steering / pygame.length steering)%V).
    { apply normalize_Ok. pose proof MAX_FORCE_pos. lra. }
    rewrite (length_normalize_mul steering _ MAX_FORCE);
      [lra | pose proof MAX_FORCE_pos; lra | exact Hn].
  - apply Rgtb_spec_false in E. exact E.
Qed.

Lemma steer_cases (desired v : Vector2) :
  steer desired v = Raise ValueError
  \/ exists f, steer desired v = Ok f /\ pygame.length f <= MAX_FORCE.
Proof.
  unfold steer. destruct (pygame.normalize desired) as [n|e] eqn:En.
  - right. eexists. split; [reflexivity | apply clamp_force_length].
  - left. apply normalize_zero_inv in En. destruct En as [-> _]. reflexivity.
Qed.

(** As long as no neighbour has been counted, [steering] is the zero
    vector. *)
Lemma fold_gather_zero (radius : R) (term : Boid -> Boid -> Vector2) (boids : list Boid)
    (self : nat) (s : Boid) (js : list nat) (acc : Vector2 * nat) :
  (snd acc = 0%nat -> fst acc = pygame.zero) ->
  snd (fold_left (gather radius term boids self s) js acc) = 0%nat ->
  fst (fold_left (gather radius term boids self s) js acc) = pygame.zero.
Proof.
  revert acc. induction js as [|j js IH]; intros acc Hacc; simpl.
  - exact Hacc.
  - apply IH. unfold gather.
    destruct (nth_error boids j) as [boid|]; [|exact Hacc].
    destruct (qualifies radius self s j boid); [|exact Hacc].
    simpl. discriminate.
Qed.

Lemma scan_zero (radius : R) (term : Boid -> Boid -> Vector2) (boids : list Boid)
    (self : nat) (s : Boid) (steering : Vector2) (total : nat) :
  scan radius term boids self s = (steering, total) ->
  (0 <? total)%nat = false -> steering = pygame.zero.
Proof.
  intros Hscan Htotal. apply Nat.ltb_ge in Htotal.
  pose proof (fold_gather_zero radius term boids self s
                (seq 0 (List.length boids)) (pygame.zero, 0%nat) (fun _ => eq_refl)) as H.
  fold (scan radius term boids self s) in H. rewrite Hscan in H. simpl in H.
  apply H. lia.
Qed.

Lemma zero_bounded : pygame.length pygame.zero <= MAX_FORCE.
Proof. rewrite length_zero. pose proof MAX_FORCE_pos. lra. Qed.

(** The shape shared by the three flocking behaviours. *)
Lemma flocking_cases (radius : R) (term : Boid -> Boid -> Vector2) (boids : list Boid)
    (self : nat) (s : Boid) (desired : Vector2 -> nat -> Vector2) :
  (let (steering, total) := scan radius term boids self s in
   if (0 <? total)%nat
   then lift (steer (desired steering total) (velocity s)) boids
   else Ok (steering, boids)) = Raise ValueError
  \/ exists f,
       (let (steering, total) := scan radius term boids self s in
        if (0 <? total)%nat
        then lift (steer (desired steering total) (velocity s)) boids
        else Ok (steering, boids)) = Ok (f, boids)
       /\ pygame.length f <= MAX_FORCE.
Proof.
  destruct (scan radius term boids self s) as [steering total] eqn:Hscan.
  destruct (0 <? total)%nat eqn:Htotal.
  - destruct (steer_cases (desired steering total) (velocity s)) as [H | (f & H & Hf)];
      rewrite H; [left | right; exists f]; auto.
  - right. exists steering. split; [reflexivity|].
    rewrite (scan_zero _ _ _ _ _ _ _ Hscan Htotal). apply zero_bounded.
Qed.

(** C4: for every population, every acting boid of it, every pointer
    position and mode, each of [align], [cohesion] and [separation]
    either raises [ValueError] or returns a force of length at most
    [MAX_FORCE]; [react_to_mouse] always returns one. *)
Theorem forces_bounded (boids : list Boid) (self : nat) (s : Boid)
    (mouse_pos : Vector2) (is_attracted : bool) :
  nth_error boids self = Some s ->
  (align self boids = Raise ValueError
   \/ exists f, align self boids = Ok (f, boids) /\ pygame.length f <= MAX_FORCE)
  /\ (cohesion self boids = Raise ValueError
      \/ exists f, cohesion self boids = Ok (f, boids) /\ pygame.length f <= MAX_FORCE)
  /\ (separation self boids = Raise ValueError
      \/ exists f, separation self boids = Ok (f, boids) /\ pygame.length f <= MAX_FORCE)
  /\ (exists f, react_to_mouse self mouse_pos is_attracted boids = Ok (f, boids)
                /\ pygame.length f <= MAX_FORCE).
Proof.
  intros Hs. repeat split.
  - rewrite (align_run boids self s Hs).
    apply (flocking_cases PERCEPTION align_term boids self s
             (fun steering total => (steering / INR total)%V)).
  - rewrite (cohesion_run boids self s Hs).
    apply (flocking_cases PERCEPTION cohesion_term boids self s
             (fun steering total => (steering / INR total - position s)%V)).
  - rewrite (separation_run boids self s Hs).
    apply (flocking_cases SEPARATION separation_term boids self s
             (fun steering total => (steering / INR total)%V)).
  - exists (mouse_force s mouse_pos is_attracted).
    split; [apply (react_to_mouse_run boids self s _ _ Hs)|].
    unfold mouse_force. cbv zeta.
    destruct (Rltb _ MOUSE_PERCEPTION && Rgtb _ 0);
      [apply clamp_force_length | apply zero_bounded].
Qed.

Lemma forces_bounded_witness :
  nth_error [leader_moved; follower] 1 = Some follower
  /\ (align 1 [leader_moved; follower] = Raise ValueError
      \/ exists f, align 1 [leader_moved; follower] = Ok (f, [leader_moved; follower])
                   /\ pygame.length f <= MAX_FORCE)
  /\ (cohesion 1 [leader_moved; follower] = Raise ValueError
      \/ exists f, cohesion 1 [leader_moved; follower] = Ok (f, [leader_moved; follower])
                   /\ pygame.length f <= MAX_FORCE)
  /\ (separation 1 [leader_moved; follower] = Raise ValueError
      \/ exists f, separation 1 [leader_moved; follower] = Ok (f, [leader_moved; follower])
                   /\ pygame.length f <= MAX_FORCE)
  /\ (exists f, react_to_mouse 1 pointer_far false [leader_moved; follower]
                = Ok (f, [leader_moved; follower])
                /\ pygame.length f <= MAX_FORCE).
Proof.
  split; [reflexivity|].
  apply (forces_bounded [leader_moved; follower] 1 follower pointer_far false).
  reflexivity.
Defined.

(** ** One boid of the frame *)

Lemma replace_nth_const_twice (i : nat) (b1 b2 : Boid) (boids : list Boid) :
  replace_nth i (fun _ => b2) (replace_nth i (fun _ => b1) boids)
  = replace_nth i (fun _ => b2) boids.
Proof. apply replace_nth_twice. Qed.

Lemma integrate_run (boids : list Boid) (self : nat) (s : Boid) (dt : R) :
  nth_error boids self = Some s ->
  (update self dt ;;; edges self) boids
  = Ok (tt, replace_nth self (fun _ => integrated s dt) boids).
Proof.
  intros Hs.
  rewrite (bind_Ok _ _ _ _ _ (update_run _ self s dt Hs)).
  match goal with
  | |- edges self (replace_nth self (fun _ => ?b) boids) = _ => set (s2 := b)
  end.
  pose proof (nth_error_replace_nth_eq self (fun _ => s2) boids s Hs) as Hs2.
  rewrite (edges_run _ self s2 Hs2). rewrite replace_nth_const_twice.
  reflexivity.
Qed.

Lemma update_boid_run (boids : list Boid) (self : nat) (s : Boid) (dt : R)
    (mouse_pos : Vector2) (is_attracted : bool) (f1 f2 f3 f4 : Vector2) :
  nth_error boids self = Some s ->
  align self boids = Ok (f1, boids) ->
  cohesion self boids = Ok (f2, boids) ->
  separation self boids = Ok (f3, boids) ->
  react_to_mouse self mouse_pos is_attracted boids = Ok (f4, boids) ->
  update_boid dt mouse_pos is_attracted self boids
  = Ok (tt, replace_nth self (fun _ => moved s f1 f2 f3 f4 dt) boids).
Proof.
  intros Hs H1 H2 H3 H4. unfold update_boid.
  rewrite (bind_Ok _ _ _ _ _
             (apply_behavior_run boids self s mouse_pos is_attracted f1 f2 f3 f4
                Hs H1 H2 H3 H4)).
  set (s1 := with_acceleration s (acceleration s + f1 + f2 + f3 + f4)).
  pose proof (nth_error_replace_nth_eq self (fun _ => s1) boids s Hs) as Hs1.
  rewrite (integrate_run _ self s1 dt Hs1).
  rewrite replace_nth_const_twice. reflexivity.
Qed.

(** ** Evaluation on concrete populations *)

Lemma qualifies_self (radius : R) (self : nat) (s boid : Boid) :
  qualifies radius self s self boid = false.
Proof. unfold qualifies. cbv zeta. rewrite Nat.eqb_refl. reflexivity. Qed.

Lemma qualifies_true (radius : R) (self : nat) (s : Boid) (j : nat) (boid : Boid) (d : R) :
  j <> self ->
  pygame.distance_to (position s) (position boid) = d -> 0 < d < radius ->
  qualifies radius self s j boid = true.
Proof.
  intros Hj Hd Hr. unfold qualifies. cbv zeta. rewrite Hd.
  apply Nat.eqb_neq in Hj. rewrite Hj. rewrite Rltb_true by lra.
  rewrite Rgtb_true by lra. reflexivity.
Qed.

Lemma qualifies_far (radius : R) (self : nat) (s : Boid) (j : nat) (boid : Boid) (d : R) :
  pygame.distance_to (position s) (position boid) = d -> radius <= d ->
  qualifies radius self s j boid = false.
Proof.
  intros Hd Hr. unfold qualifies. cbv zeta. rewrite Hd.
  rewrite Rltb_false by lra. rewrite andb_false_r. reflexivity.
Qed.

Lemma qualifies_coincident (radius : R) (self : nat) (s : Boid) (j : nat) (boid : Boid) :
  pygame.distance_to (position s) (position boid) = 0 ->
  qualifies radius self s j boid = false.
Proof.
  intros Hd. unfold qualifies. cbv zeta. rewrite Hd.
  rewrite Rgtb_false by lra. rewrite andb_false_r. reflexivity.
Qed.

(** [steer] on given numbers: [l] is the length of [desired], [raw] the
    vector before the limit and [m] its length. *)
Lemma steer_eval (desired v raw f : Vector2) (l m : R) :
  0 < l -> l * l = pygame.x desired * pygame.x desired + pygame.y desired * pygame.y desired ->
  raw = (desired / l * MAX_SPEED - v)%V ->
  0 <= m -> m * m = pygame.x raw * pygame.x raw + pygame.y raw * pygame.y raw ->
  (m > MAX_FORCE /\ f = (raw / m * MAX_FORCE)%V) \/ (m <= MAX_FORCE /\ f = raw) ->
  steer desired v = Ok f.
Proof.
  intros Hl Hll Hraw Hm Hmm Hf.
  assert (El : pygame.length desired = l) by (apply length_eq; lra).
  assert (Em : pygame.length raw = m) by (apply length_eq; lra).
  unfold steer. rewrite normalize_Ok by lra. rewrite El, <- Hraw.
  unfold clamp_force. rewrite Em.
  destruct Hf as [[Hgt ->] | [Hle ->]].
  - rewrite Rgtb_true by lra. reflexivity.
  - rewrite Rgtb_false by lra. reflexivity.
Qed.

Create HintDb samples.

#[local] Hint Unfold resting_boid left_of_world right_of_world
  leader follower leader_moved follower_moved follower_coasted pointer_far
  middle east west crossing : samples.

Ltac eval_vectors :=
  autounfold with samples;
  unfold align_term, cohesion_term, separation_term,
         pygame.add, pygame.sub, pygame.mul, pygame.div, pygame.neg, pygame.zero,
         MAX_SPEED, MAX_FORCE;
  cbn [pygame.x pygame.y position velocity acceleration].

Ltac num_eq := eval_vectors; first [lra | field; lra].

Ltac vec_eq := eval_vectors; f_equal; first [lra | field; lra].

Ltac distance_is d :=
  apply (distance_to_eq _ _ d); autounfold with samples;
  cbn [pygame.x pygame.y position]; lra.

Lemma follower_sees_leader_moved (radius : R) :
  45 < radius -> qualifies radius 1 follower 0 leader_moved = true.
Proof.
  intros Hr. apply (qualifies_true radius 1 follower 0 leader_moved 45);
    [discriminate | distance_is 45 | lra].
Qed.

Lemma align_follower_after_leader :
  align 1 [leader_moved; follower] = Ok (pygame.mkVector2 200 0, [leader_moved; follower]).
Proof.
  rewrite (align_run [leader_moved; follower] 1 follower eq_refl).
  unfold scan. cbn [List.length seq fold_left]. unfold gather. cbn [nth_error].
  rewrite follower_sees_leader_moved by (unfold PERCEPTION; lra).
  rewrite qualifies_self. cbn [fst snd Nat.ltb Nat.leb INR].
  rewrite (steer_eval _ _ (pygame.mkVector2 230 0) (pygame.mkVector2 200 0) 10 230).
  - reflexivity.
  - lra.
  - num_eq.
  - vec_eq.
  - lra.
  - num_eq.
  - left. split; [unfold MAX_FORCE; lra | vec_eq].
Qed.

(** ** No neighbour *)

Lemma fold_gather_none (radius : R) (term : Boid -> Boid -> Vector2) (boids : list Boid)
    (self : nat) (s : Boid) (js : list nat) (acc : Vector2 * nat) :
  (forall j boid, nth_error boids j = Some boid -> qualifies radius self s j boid = false) ->
  fold_left (gather radius term boids self s) js acc = acc.
Proof.
  intros Hnone. revert acc. induction js as [|j js IH]; intros acc; simpl.
  - reflexivity.
  - rewrite <- (IH acc) at 2. f_equal. unfold gather.
    destruct (nth_error boids j) as [boid|] eqn:Hj; [|reflexivity].
    rewrite (Hnone j boid Hj). reflexivity.
Qed.

Lemma scan_none (radius : R) (term : Boid -> Boid -> Vector2) (boids : list Boid)
    (self : nat) (s : Boid) :
  (forall j boid, nth_error boids j = Some boid -> qualifies radius self s j boid = false) ->
  scan radius term boids self s = (pygame.zero, 0%nat).
Proof. intros Hnone. unfold scan. apply fold_gather_none, Hnone. Qed.

Lemma not_qualifies (radius : R) (self : nat) (s : Boid) (j : nat) (boid : Boid) :
  (j <> self -> ~ (0 < pygame.distance_to (position s) (position boid) < radius)) ->
  qualifies radius self s j boid = false.
Proof.
  intros H. destruct (qualifies radius self s j boid) eqn:E; [|reflexivity].
  apply qualifies_distance_pos in E. destruct E as [Hj Hd]. destruct (H Hj Hd).
Qed.

(** C7: a boid with no qualifying neighbour (no other boid at a distance
    strictly between 0 and the perception radius, nor strictly between 0
    and the separation radius) gets exactly the zero vector from
    [align], [cohesion] and [separation], which all return. *)
Theorem no_neighbour_zero_force (boids : list Boid) (self : nat) (s : Boid) :
  nth_error boids self = Some s ->
  (forall j boid, nth_error boids j = Some boid -> j <> self ->
     ~ (0 < pygame.distance_to (position s) (position boid) < PERCEPTION)) ->
  (forall j boid, nth_error boids j = Some boid -> j <> self ->
     ~ (0 < pygame.distance_to (position s) (position boid) < SEPARATION)) ->
  align self boids = Ok (pygame.zero, boids)
  /\ cohesion self boids = Ok (pygame.zero, boids)
  /\ separation self boids = Ok (pygame.zero, boids).
Proof.
  intros Hs Hp Hsep. repeat split.
  - rewrite (align_run boids self s Hs), scan_none; [reflexivity|].
    intros j boid Hj. apply not_qualifies. exact (Hp j boid Hj).
  - rewrite (cohesion_run boids self s Hs), scan_none; [reflexivity|].
    intros j boid Hj. apply not_qualifies. exact (Hp j boid Hj).
  - rewrite (separation_run boids self s Hs), scan_none; [reflexivity|].
    intros j boid Hj. apply not_qualifies. exact (Hsep j boid Hj).
Qed.

Lemma distance_leader_follower :
  pygame.distance_to (position leader) (position follower) = 55.
Proof. distance_is 55. Qed.

Lemma distance_leader_leader :
  pygame.distance_to (position leader) (position leader) = 0.
Proof. distance_is 0. Qed.

(** The leader of the pair has the follower 55 away, beyond both radii. *)
Lemma no_neighbour_zero_force_witness :
  nth_error [leader; follower] 0 = Some leader
  /\ align 0 [leader; follower] = Ok (pygame.zero, [leader; follower])
  /\ cohesion 0 [leader; follower] = Ok (pygame.zero, [leader; follower])
  /\ separation 0 [leader; follower] = Ok (pygame.zero, [leader; follower]).
Proof.
  split; [reflexivity|].
  apply (no_neighbour_zero_force [leader; follower] 0 leader).
  - reflexivity.
  - intros [|[|j]] boid Hj Hne; simpl in Hj; inversion Hj; subst.
    + rewrite distance_leader_leader. lra.
    + rewrite distance_leader_follower. unfold PERCEPTION. lra.
    + destruct j; discriminate.
  - intros [|[|j]] boid Hj Hne; simpl in Hj; inversion Hj; subst.
    + rewrite distance_leader_leader. lra.
    + rewrite distance_leader_follower. unfold SEPARATION. lra.
    + destruct j; discriminate.
Defined.

(** ** A zero vector reaches [normalize] *)

Lemma steer_zero (desired v : Vector2) :
  pygame.x desired = 0 -> pygame.y desired = 0 -> steer desired v = Raise ValueError.
Proof.
  intros Hx Hy. unfold steer. rewrite normalize_Raise; [reflexivity|].
  apply length_eq; [lra | rewrite Hx, Hy; lra].
Qed.

Ltac scan_eval :=
  unfold scan; cbn [List.length seq fold_left]; unfold gather; cbn [nth_error].

Lemma middle_sees_east (radius : R) :
  10 < radius -> qualifies radius 0 middle 1 east = true.
Proof.
  intros Hr. apply (qualifies_true radius 0 middle 1 east 10);
    [discriminate | distance_is 10 | lra].
Qed.

Lemma middle_sees_west (radius : R) :
  10 < radius -> qualifies radius 0 middle 2 west = true.
Proof.
  intros Hr. apply (qualifies_true radius 0 middle 2 west 10);
    [discriminate | distance_is 10 | lra].
Qed.

Lemma scan_crossing (radius : R) (term : Boid -> Boid -> Vector2) :
  10 < radius ->
  scan radius term crossing 0 middle
  = ((pygame.zero + term middle east + term middle west)%V, 2%nat).
Proof.
  intros Hr. unfold crossing. scan_eval.
  rewrite qualifies_self, middle_sees_east, middle_sees_west by exact Hr.
  reflexivity.
Qed.

Lemma align_crossing : align 0 crossing = Raise ValueError.
Proof.
  rewrite (align_run crossing 0 middle eq_refl).
  rewrite scan_crossing by (unfold PERCEPTION; lra).
  cbn [Nat.ltb Nat.leb]. rewrite steer_zero; [reflexivity | num_eq | num_eq].
Qed.

Lemma cohesion_crossing : cohesion 0 crossing = Raise ValueError.
Proof.
  rewrite (cohesion_run crossing 0 middle eq_refl).
  rewrite scan_crossing by (unfold PERCEPTION; lra).
  cbn [Nat.ltb Nat.leb]. rewrite steer_zero; [reflexivity | |];
    eval_vectors; cbn [INR]; lra.
Qed.

Ltac length_is l :=
  apply (length_eq _ l); eval_vectors; lra.

Lemma separation_term_east :
  separation_term middle east = pygame.mkVector2 (- 1 / 10) 0.
Proof.
  unfold separation_term. cbv zeta.
  replace (pygame.distance_to (position middle) (position east)) with 10
    by (symmetry; distance_is 10).
  replace (pygame.length (position middle - position east)) with 10
    by (symmetry; length_is 10).
  vec_eq.
Qed.

Lemma separation_term_west :
  separation_term middle west = pygame.mkVector2 (1 / 10) 0.
Proof.
  unfold separation_term. cbv zeta.
  replace (pygame.distance_to (position middle) (position west)) with 10
    by (symmetry; distance_is 10).
  replace (pygame.length (position middle - position west)) with 10
    by (symmetry; length_is 10).
  vec_eq.
Qed.

Lemma separation_crossing : separation 0 crossing = Raise ValueError.
Proof.
  rewrite (separation_run crossing 0 middle eq_refl).
  rewrite scan_crossing by (unfold SEPARATION; lra).
  rewrite separation_term_east, separation_term_west.
  cbn [Nat.ltb Nat.leb]. rewrite steer_zero; [reflexivity | |];
    eval_vectors; cbn [INR]; lra.
Qed.

Lemma update_all_boids_crossing (dt : R) (mouse_pos : Vector2) (is_attracted : bool) :
  update_all_boids dt mouse_pos is_attracted crossing = Raise ValueError.
Proof.
  unfold update_all_boids, for_boids.
  rewrite (bind_Ok len _ crossing crossing 3%nat eq_refl).
  cbn [seq for_range]. apply bind_Raise.
  unfold update_boid. apply bind_Raise.
  unfold apply_behavior. apply bind_Raise. exact align_crossing.
Qed.

(** C2 fails on the code: in [crossing] the two neighbours of the first
    boid have opposite velocities and lie on opposite sides of it, so
    the averaged vector that [align], [cohesion] and [separation] pass
    to [normalize] is the zero vector; each raises [ValueError], and so
    does the whole frame. *)
Theorem behaviours_normalize_zero_vector :
  align 0 crossing = Raise ValueError
  /\ cohesion 0 crossing = Raise ValueError
  /\ separation 0 crossing = Raise ValueError
  /\ forall (dt : R) (mouse_pos : Vector2) (is_attracted : bool),
       update_all_boids dt mouse_pos is_attracted crossing = Raise ValueError.
Proof.
  split; [exact align_crossing|].
  split; [exact cohesion_crossing|].
  split; [exact separation_crossing|].
  exact update_all_boids_crossing.
Qed.

(** ** A frame of the pair, by the code and by the specification *)

Lemma behaviours_none (boids : list Boid) (self : nat) (s : Boid) :
  nth_error boids self = Some s ->
  (forall j boid, nth_error boids j = Some boid -> qualifies PERCEPTION self s j boid = false) ->
  (forall j boid, nth_error boids j = Some boid -> qualifies SEPARATION self s j boid = false) ->
  align self boids = Ok (pygame.zero, boids)
  /\ cohesion self boids = Ok (pygame.zero, boids)
  /\ separation self boids = Ok (pygame.zero, boids).
Proof.
  intros Hs Hp Hsep. repeat split.
  - rewrite (align_run boids self s Hs), scan_none; [reflexivity | exact Hp].
  - rewrite (cohesion_run boids self s Hs), scan_none; [reflexivity | exact Hp].
  - rewrite (separation_run boids self s Hs), scan_none; [reflexivity | exact Hsep].
Qed.

Lemma mouse_force_far (s : Boid) (mouse_pos : Vector2) (is_attracted : bool) (d : R) :
  pygame.distance_to (position s) mouse_pos = d -> MOUSE_PERCEPTION <= d ->
  mouse_force s mouse_pos is_attracted = pygame.zero.
Proof.
  intros Hd Hfar. unfold mouse_force. cbv zeta. rewrite Hd.
  rewrite Rltb_false by lra. reflexivity.
Qed.

(** [integrated] on given numbers, for a boid below the speed limit that
    stays in the world: [v'] is the new velocity, [l] its length and
    [p'] the new position. *)
Lemma integrated_eval (s : Boid) (dt : R) (v' p' : Vector2) (l : R) :
  v' = (velocity s + acceleration s * dt)%V ->
  0 <= l <= MAX_SPEED -> l * l = pygame.x v' * pygame.x v' + pygame.y v' * pygame.y v' ->
  p' = (position s + v' * dt)%V ->
  0 <= pygame.x p' <= WIDTH -> 0 <= pygame.y p' <= HEIGHT ->
  integrated s dt = mkBoid p' v' pygame.zero (life_history s).
Proof.
  intros Hv Hl Hll Hp Hx Hy. unfold integrated. cbv zeta.
  rewrite <- Hv. unfold limited.
  rewrite (length_eq v' l) by lra. rewrite Rgtb_false by lra.
  rewrite <- Hp, mul_zero, (wrap_inside WIDTH), (wrap_inside HEIGHT) by assumption.
  destruct p'. reflexivity.
Qed.

Lemma moved_eval (s : Boid) (f1 f2 f3 f4 : Vector2) (dt : R) (v' p' : Vector2) (l : R) :
  v' = (velocity s + (acceleration s + f1 + f2 + f3 + f4) * dt)%V ->
  0 <= l <= MAX_SPEED -> l * l = pygame.x v' * pygame.x v' + pygame.y v' * pygame.y v' ->
  p' = (position s + v' * dt)%V ->
  0 <= pygame.x p' <= WIDTH -> 0 <= pygame.y p' <= HEIGHT ->
  moved s f1 f2 f3 f4 dt = mkBoid p' v' pygame.zero (life_history s).
Proof.
  intros Hv Hl Hll Hp Hx Hy. unfold moved.
  apply (integrated_eval (with_acceleration s (acceleration s + f1 + f2 + f3 + f4))
           dt v' p' l); assumption.
Qed.

Ltac bound := eval_vectors; unfold WIDTH, HEIGHT; lra.

Lemma leader_alone (radius : R) (j : nat) (boid : Boid) :
  radius <= 55 ->
  nth_error [leader; follower] j = Some boid -> qualifies radius 0 leader j boid = false.
Proof.
  intros Hr Hj. destruct j as [|[|j]]; simpl in Hj.
  - apply qualifies_self.
  - inversion Hj. subst boid.
    apply (qualifies_far radius 0 leader 1 follower 55); [distance_is 55 | exact Hr].
  - destruct j; discriminate.
Qed.

Lemma update_boid_leader :
  update_boid 1 pointer_far false 0 [leader; follower] = Ok (tt, [leader_moved; follower]).
Proof.
  destruct (behaviours_none [leader; follower] 0 leader eq_refl) as (H1 & H2 & H3).
  { intros j boid. apply leader_alone. unfold PERCEPTION. lra. }
  { intros j boid. apply leader_alone. unfold SEPARATION. lra. }
  rewrite (update_boid_run [leader; follower] 0 leader 1 pointer_far false
             pygame.zero pygame.zero pygame.zero pygame.zero eq_refl H1 H2 H3).
  - cbn [replace_nth].
    rewrite (moved_eval leader _ _ _ _ 1 (pygame.mkVector2 10 0) (pygame.mkVector2 10 0) 10).
    + reflexivity.
    + vec_eq.
    + bound.
    + num_eq.
    + vec_eq.
    + bound.
    + bound.
  - rewrite (react_to_mouse_run [leader; follower] 0 leader _ _ eq_refl).
    rewrite (mouse_force_far leader pointer_far false 1000);
      [reflexivity | distance_is 1000 | unfold MOUSE_PERCEPTION; lra].
Qed.

Lemma scan_follower_after_leader (radius : R) (term : Boid -> Boid -> Vector2) :
  45 < radius ->
  scan radius term [leader_moved; follower] 1 follower
  = ((pygame.zero + term follower leader_moved)%V, 1%nat).
Proof.
  intros Hr. scan_eval.
  rewrite follower_sees_leader_moved, qualifies_self by exact Hr. reflexivity.
Qed.

Lemma cohesion_follower_after_leader :
  cohesion 1 [leader_moved; follower]
  = Ok (pygame.mkVector2 (-200) 0, [leader_moved; follower]).
Proof.
  rewrite (cohesion_run [leader_moved; follower] 1 follower eq_refl).
  rewrite scan_follower_after_leader by (unfold PERCEPTION; lra).
  cbn [Nat.ltb Nat.leb INR].
  rewrite (steer_eval _ _ (pygame.mkVector2 (-250) 0) (pygame.mkVector2 (-200) 0) 45 250).
  - reflexivity.
  - lra.
  - num_eq.
  - vec_eq.
  - lra.
  - num_eq.
  - left. split; [unfold MAX_FORCE; lra | vec_eq].
Qed.

Lemma separation_term_follower :
  separation_term follower leader_moved = pygame.mkVector2 (1 / 45) 0.
Proof.
  unfold separation_term. cbv zeta.
  replace (pygame.distance_to (position follower) (position leader_moved)) with 45
    by (symmetry; distance_is 45).
  replace (pygame.length (position follower - position leader_moved)) with 45
    by (symmetry; length_is 45).
  vec_eq.
Qed.

Lemma separation_follower_after_leader :
  separation 1 [leader_moved; follower]
  = Ok (pygame.mkVector2 200 0, [leader_moved; follower]).
Proof.
  rewrite (separation_run [leader_moved; follower] 1 follower eq_refl).
  rewrite scan_follower_after_leader by (unfold SEPARATION; lra).
  rewrite separation_term_follower.
  cbn [Nat.ltb Nat.leb INR].
  rewrite (steer_eval _ _ (pygame.mkVector2 230 0) (pygame.mkVector2 200 0) (1 / 45) 230).
  - reflexivity.
  - lra.
  - num_eq.
  - vec_eq.
  - lra.
  - num_eq.
  - left. split; [unfold MAX_FORCE; lra | vec_eq].
Qed.

Lemma react_to_mouse_follower (boids : list Boid) :
  nth_error boids 1 = Some follower ->
  react_to_mouse 1 pointer_far false boids = Ok (pygame.zero, boids).
Proof.
  intros Hs. rewrite (react_to_mouse_run boids 1 follower _ _ Hs).
  rewrite (mouse_force_far follower pointer_far false 945);
    [reflexivity | distance_is 945 | unfold MOUSE_PERCEPTION; lra].
Qed.

Lemma update_boid_follower :
  update_boid 1 pointer_far false 1 [leader_moved; follower]
  = Ok (tt, [leader_moved; follower_moved]).
Proof.
  rewrite (update_boid_run [leader_moved; follower] 1 follower 1 pointer_far false
             _ _ _ _ eq_refl
             align_follower_after_leader cohesion_follower_after_leader
             separation_follower_after_leader
             (react_to_mouse_follower [leader_moved; follower] eq_refl)).
  cbn [replace_nth].
  rewrite (moved_eval follower _ _ _ _ 1 (pygame.mkVector2 210 0) (pygame.mkVector2 265 0) 210).
  - reflexivity.
  - vec_eq.
  - bound.
  - num_eq.
  - vec_eq.
  - bound.
  - bound.
Qed.

Lemma update_all_boids_pair :
  update_all_boids 1 pointer_far false [leader; follower]
  = Ok (tt, [leader_moved; follower_moved]).
Proof.
  unfold update_all_boids, for_boids.
  rewrite (bind_Ok len _ [leader; follower] [leader; follower] 2%nat eq_refl).
  cbn [seq for_range].
  rewrite (bind_Ok _ _ _ _ _ update_boid_leader).
  rewrite (bind_Ok _ _ _ _ _ update_boid_follower).
  reflexivity.
Qed.

Lemma follower_alone (radius : R) (j : nat) (boid : Boid) :
  radius <= 55 ->
  nth_error [leader; follower] j = Some boid -> qualifies radius 1 follower j boid = false.
Proof.
  intros Hr Hj. destruct j as [|[|j]]; simpl in Hj.
  - inversion Hj. subst boid.
    apply (qualifies_far radius 1 follower 0 leader 55); [distance_is 55 | exact Hr].
  - apply qualifies_self.
  - destruct j; discriminate.
Qed.

Lemma apply_behavior_leader :
  apply_behavior 0 pointer_far false [leader; follower] = Ok (tt, [leader; follower]).
Proof.
  destruct (behaviours_none [leader; follower] 0 leader eq_refl) as (H1 & H2 & H3).
  { intros j boid. apply leader_alone. unfold PERCEPTION. lra. }
  { intros j boid. apply leader_alone. unfold SEPARATION. lra. }
  rewrite (apply_behavior_run [leader; follower] 0 leader pointer_far false
             pygame.zero pygame.zero pygame.zero pygame.zero eq_refl H1 H2 H3).
  - cbn [replace_nth]. do 3 f_equal. unfold with_acceleration, leader.
    cbn [position velocity acceleration life_history]. f_equal. vec_eq.
  - rewrite (react_to_mouse_run [leader; follower] 0 leader _ _ eq_refl).
    rewrite (mouse_force_far leader pointer_far false 1000);
      [reflexivity | distance_is 1000 | unfold MOUSE_PERCEPTION; lra].
Qed.

Lemma apply_behavior_follower :
  apply_behavior 1 pointer_far false [leader; follower] = Ok (tt, [leader; follower]).
Proof.
  destruct (behaviours_none [leader; follower] 1 follower eq_refl) as (H1 & H2 & H3).
  { intros j boid. apply follower_alone. unfold PERCEPTION. lra. }
  { intros j boid. apply follower_alone. unfold SEPARATION. lra. }
  rewrite (apply_behavior_run [leader; follower] 1 follower pointer_far false
             pygame.zero pygame.zero pygame.zero pygame.zero eq_refl H1 H2 H3
             (react_to_mouse_follower [leader; follower] eq_refl)).
  cbn [replace_nth]. do 4 f_equal. unfold with_acceleration, follower.
  cbn [position velocity acceleration life_history]. f_equal. vec_eq.
Qed.

Lemma integrate_leader (rest : list Boid) :
  (update 0 1 ;;; edges 0) (leader :: rest) = Ok (tt, leader_moved :: rest).
Proof.
  rewrite (integrate_run (leader :: rest) 0 leader 1 eq_refl). cbn [replace_nth].
  rewrite (integrated_eval leader 1 (pygame.mkVector2 10 0) (pygame.mkVector2 10 0) 10).
  - reflexivity.
  - vec_eq.
  - bound.
  - num_eq.
  - vec_eq.
  - bound.
  - bound.
Qed.

Lemma integrate_follower (first : Boid) :
  (update 1 1 ;;; edges 1) [first; follower] = Ok (tt, [first; follower_coasted]).
Proof.
  rewrite (integrate_run [first; follower] 1 follower 1 eq_refl). cbn [replace_nth].
  rewrite (integrated_eval follower 1 (pygame.mkVector2 10 0) (pygame.mkVector2 65 0) 10).
  - reflexivity.
  - vec_eq.
  - bound.
  - num_eq.
  - vec_eq.
  - bound.
  - bound.
Qed.

Lemma spec_step_pair :
  spec_step 1 pointer_far false [leader; follower]
  = Ok (tt, [leader_moved; follower_coasted]).
Proof.
  unfold spec_step, for_boids.
  rewrite bind_assoc.
  rewrite (bind_Ok len _ [leader; follower] [leader; follower] 2%nat eq_refl).
  cbn [seq for_range].
  rewrite !bind_assoc.
  rewrite (bind_Ok _ _ _ _ _ apply_behavior_leader).
  rewrite !bind_assoc.
  rewrite (bind_Ok _ _ _ _ _ apply_behavior_follower).
  rewrite run_ret.
  rewrite (bind_Ok len _ [leader; follower] [leader; follower] 2%nat eq_refl).
  cbn [seq for_range].
  rewrite (bind_Ok _ _ _ _ _ (integrate_leader [follower])).
  rewrite (bind_Ok _ _ _ _ _ (integrate_follower leader_moved)).
  reflexivity.
Qed.

(** ** Methods that write one boid *)

Lemma writes_only_read_only {A} (i : nat) (m : M A) : read_only m -> writes_only i m.
Proof.
  intros Hm boids boids' a H. apply Hm in H. subst boids'. split; reflexivity.
Qed.

Lemma writes_only_set_attr (upd : Boid -> Boid) (i : nat) : writes_only i (set_attr upd i).
Proof.
  intros boids boids' a H. apply set_attr_Ok_inv in H. destruct H as (b & _ & ->).
  split; [apply replace_nth_length | intros j Hj; apply nth_error_replace_nth_neq, Hj].
Qed.

Lemma writes_only_bind {A B} (i : nat) (m : M A) (k : A -> M B) :
  writes_only i m -> (forall a, writes_only i (k a)) -> writes_only i (bind m k).
Proof.
  intros Hm Hk boids boids'' b H.
  apply bind_Ok_inv in H. destruct H as (a & boids' & H1 & H2).
  apply Hm in H1. apply Hk in H2. destruct H1 as [L1 N1], H2 as [L2 N2].
  split; [congruence | intros j Hj; rewrite N2, N1 by exact Hj; reflexivity].
Qed.

Ltac writes_only_tac :=
  unfold_attrs;
  repeat first
    [ apply writes_only_set_attr
    | apply writes_only_read_only;
      first [ apply read_only_ret | apply read_only_lift | apply read_only_get_attr
            | apply align_read_only | apply cohesion_read_only
            | apply separation_read_only | apply react_to_mouse_read_only ]
    | apply writes_only_bind; [ | intros ? ]
    | match goal with
      | |- writes_only _ (if ?c then _ else _) => destruct c
      end ].

Lemma apply_behavior_writes_only (self : nat) (mouse_pos : Vector2) (is_attracted : bool) :
  writes_only self (apply_behavior self mouse_pos is_attracted).
Proof. unfold apply_behavior. writes_only_tac. Qed.

Lemma update_writes_only (self : nat) (dt : R) : writes_only self (update self dt).
Proof. unfold update. writes_only_tac. Qed.

Lemma edges_writes_only (self : nat) : writes_only self (edges self).
Proof. unfold edges. writes_only_tac. Qed.

Lemma update_boid_writes_only (dt : R) (mouse_pos : Vector2) (is_attracted : bool)
    (self : nat) :
  writes_only self (update_boid dt mouse_pos is_attracted self).
Proof.
  unfold update_boid.
  apply writes_only_bind; [apply apply_behavior_writes_only | intros _].
  apply writes_only_bind; [apply update_writes_only | intros _].
  apply edges_writes_only.
Qed.

Lemma update_boid_in_range (dt : R) (mouse_pos : Vector2) (is_attracted : bool)
    (self : nat) (boids boids' : list Boid) (u : unit) :
  update_boid dt mouse_pos is_attracted self boids = Ok (u, boids') ->
  (self < List.length boids)%nat.
Proof.
  intros H. unfold update_boid in H.
  apply bind_Ok_inv in H. destruct H as ([] & mid & H & _).
  apply apply_behavior_Ok_inv in H. destruct H as (b & _ & _ & _ & _ & Hb & _).
  apply nth_error_Some. rewrite Hb. discriminate.
Qed.

(** ** The order of the frame *)

Lemma nth_error_partly_updated (k j : nat) (after before : list Boid) :
  List.length after = List.length before ->
  nth_error (partly_updated k after before) j
  = if (j <? k)%nat then nth_error after j else nth_error before j.
Proof.
  intros Hlen. unfold partly_updated.
  destruct (j <? k)%nat eqn:E.
  - apply Nat.ltb_lt in E.
    destruct (Nat.lt_ge_cases j (List.length after)) as [Hj | Hj].
    + rewrite nth_error_app1 by (rewrite length_firstn; lia).
      rewrite nth_error_firstn. apply Nat.ltb_lt in E. rewrite E. reflexivity.
    + rewrite (proj2 (nth_error_None after j) Hj).
      apply nth_error_None. rewrite length_app, length_firstn, length_skipn. lia.
  - apply Nat.ltb_ge in E.
    destruct (Nat.lt_ge_cases k (List.length after)) as [Hk | Hk].
    + rewrite nth_error_app2 by (rewrite length_firstn; lia).
      rewrite length_firstn, nth_error_skipn. f_equal. lia.
    + rewrite (proj2 (nth_error_None before j)) by lia.
      apply nth_error_None. rewrite length_app, length_firstn, length_skipn. lia.
Qed.

Section Frame.

Variables (dt : R) (mouse_pos : Vector2) (is_attracted : bool).

(** The boids before the range of a loop are not touched by it. *)
Lemma frame_keeps_prefix (m k : nat) (boids after : list Boid) (u : unit) :
  for_range (seq k m) (fun boid _ => update_boid dt mouse_pos is_attracted boid) tt boids
  = Ok (u, after) ->
  List.length after = List.length boids
  /\ forall j, (j < k)%nat -> nth_error after j = nth_error boids j.
Proof.
  revert k boids. induction m as [|m IH]; intros k boids H; simpl in H.
  - inversion H. split; reflexivity.
  - apply bind_Ok_inv in H. destruct H as ([] & mid & Hk & Hrest).
    apply update_boid_writes_only in Hk. destruct Hk as [Lk Nk].
    apply IH in Hrest. destruct Hrest as [Lr Nr].
    split; [congruence|]. intros j Hj.
    rewrite Nr by lia. apply Nk. lia.
Qed.

(** Boid [k'] is processed on the list in which the boids before it
    are final and the others untouched. *)
Lemma frame_in_order (m k : nat) (boids after : list Boid) (u : unit) :
  for_range (seq k m) (fun boid _ => update_boid dt mouse_pos is_attracted boid) tt boids
  = Ok (u, after) ->
  forall k', (k <= k' < k + m)%nat ->
    update_boid dt mouse_pos is_attracted k' (partly_updated k' after boids)
    = Ok (tt, partly_updated (S k') after boids).
Proof.
  revert k boids. induction m as [|m IH]; intros k boids H k' Hk'; [lia|].
  simpl in H. apply bind_Ok_inv in H. destruct H as ([] & mid & Hk & Hrest).
  pose proof (update_boid_in_range _ _ _ _ _ _ _ Hk) as Hin.
  pose proof (update_boid_writes_only _ _ _ _ _ _ _ Hk) as [Lk Nk].
  pose proof (frame_keeps_prefix _ _ _ _ _ Hrest) as [Lr Nr].
  assert (Hlen : List.length after = List.length boids) by congruence.
  destruct (Nat.eq_dec k' k) as [-> | Hne].
  - assert (E1 : partly_updated k after boids = boids).
    { apply nth_error_ext. intros j. rewrite nth_error_partly_updated by exact Hlen.
      destruct (j <? k)%nat eqn:E; [|reflexivity].
      apply Nat.ltb_lt in E. rewrite Nr by lia. apply Nk. lia. }
    assert (E2 : partly_updated (S k) after boids = mid).
    { apply nth_error_ext. intros j. rewrite nth_error_partly_updated by exact Hlen.
      destruct (j <? S k)%nat eqn:E.
      - apply Nat.ltb_lt in E. apply Nr. exact E.
      - apply Nat.ltb_ge in E. symmetry. apply Nk. lia. }
    rewrite E1, E2. exact Hk.
  - assert (E : forall i, (k < i)%nat -> partly_updated i after boids = partly_updated i after mid).
    { intros i Hi. apply nth_error_ext. intros j.
      rewrite !nth_error_partly_updated by congruence.
      destruct (j <? i)%nat eqn:E; [reflexivity|].
      apply Nat.ltb_ge in E. symmetry. apply Nk. lia. }
    rewrite (E k'), (E (S k')) by lia.
    apply (IH (S k) mid Hrest). lia.
Qed.

End Frame.

(** C1, as stated, fails.  In the pair the follower is 55 away from the
    leader, beyond the perception radius.  [update_all_boids] moves the
    leader to [x = 10] before it computes the forces of the follower,
    which therefore sees a neighbour at distance 45: its alignment
    force is (200, 0) on the list it reads and zero on the list as it
    was before the frame, and the frame ends in a state other than that
    of the two-phase step of the specification. *)
Lemma update_all_boids_snapshot_counterexample :
  exists seen after_code after_spec : list Boid,
    update_boid 1 pointer_far false 0 [leader; follower] = Ok (tt, seen)
    /\ seen <> [leader; follower]
    /\ align 1 [leader; follower] = Ok (pygame.zero, [leader; follower])
    /\ align 1 seen = Ok (pygame.mkVector2 200 0, seen)
    /\ update_all_boids 1 pointer_far false [leader; follower] = Ok (tt, after_code)
    /\ spec_step 1 pointer_far false [leader; follower] = Ok (tt, after_spec)
    /\ after_code <> after_spec.
Proof.
  exists [leader_moved; follower], [leader_moved; follower_moved],
         [leader_moved; follower_coasted].
  split; [exact update_boid_leader|].
  split.
  { intros H. inversion H as [Hx]. lra. }
  split.
  { apply (behaviours_none [leader; follower] 1 follower eq_refl).
    - intros j boid. apply follower_alone. unfold PERCEPTION. lra.
    - intros j boid. apply follower_alone. unfold SEPARATION. lra. }
  split; [exact align_follower_after_leader|].
  split; [exact update_all_boids_pair|].
  split; [exact spec_step_pair|].
  intros H. inversion H as [[Hx Hv]]. lra.
Qed.

(** C1, amended: [update_all_boids] processes the boids in list order
    and finishes each one (forces, integration, wrap) before the next.
    When the frame returns, the forces of boid [k] have been evaluated
    on the list in which the boids before [k] are already in their
    state after the frame and boid [k] and the later ones still in their
    state before it; boid [k] is then integrated and wrapped at once. *)
Theorem update_all_boids_in_list_order (dt : R) (mouse_pos : Vector2) (is_attracted : bool)
    (boids after : list Boid) :
  update_all_boids dt mouse_pos is_attracted boids = Ok (tt, after) ->
  List.length after = List.length boids
  /\ forall k : nat, (k < List.length boids)%nat ->
       exists mid : list Boid,
         apply_behavior k mouse_pos is_attracted (partly_updated k after boids)
         = Ok (tt, mid)
         /\ (update k dt ;;; edges k) mid = Ok (tt, partly_updated (S k) after boids).
Proof.
  intros H. unfold update_all_boids, for_boids in H.
  rewrite (bind_Ok len _ boids boids (List.length boids) eq_refl) in H.
  split.
  - apply (frame_keeps_prefix dt mouse_pos is_attracted _ _ _ _ _ H).
  - intros k Hk.
    pose proof (frame_in_order dt mouse_pos is_attracted _ _ _ _ _ H k) as Hstep.
    specialize (Hstep ltac:(lia)). unfold update_boid in Hstep.
    apply bind_Ok_inv in Hstep. destruct Hstep as ([] & mid & H1 & H2).
    exists mid. split; assumption.
Qed.

Lemma update_all_boids_in_list_order_witness :
  update_all_boids 1 pointer_far false [leader; follower]
  = Ok (tt, [leader_moved; follower_moved])
  /\ List.length [leader_moved; follower_moved] = List.length [leader; follower]
  /\ forall k : nat, (k < List.length [leader; follower])%nat ->
       exists mid : list Boid,
         apply_behavior k pointer_far false
           (partly_updated k [leader_moved; follower_moved] [leader; follower])
         = Ok (tt, mid)
         /\ (update k 1 ;;; edges k) mid
            = Ok (tt, partly_updated (S k) [leader_moved; follower_moved] [leader; follower]).
Proof.
  split; [exact update_all_boids_pair|].
  apply (update_all_boids_in_list_order 1 pointer_far false [leader; follower]
           [leader_moved; follower_moved]).
  exact update_all_boids_pair.
Defined.

(** ** Determinism: the frame is a function of the snapshots *)

Lemma same_snapshots_nth_error (boids1 boids2 : list Boid) (i : nat) :
  same_snapshots boids1 boids2 ->
  match nth_error boids1 i, nth_error boids2 i with
  | Some b1, Some b2 => snapshot b1 = snapshot b2
  | None, None => True
  | _, _ => False
  end.
Proof.
  unfold same_snapshots. intros H.
  pose proof (f_equal (fun l => nth_error l i) H) as Hi. cbv beta in Hi.
  rewrite !nth_error_map in Hi.
  destruct (nth_error boids1 i), (nth_error boids2 i); simpl in Hi;
    try discriminate; [congruence | exact I].
Qed.

Lemma same_snapshots_replace_nth (upd : Boid -> Boid) (i : nat) (boids1 boids2 : list Boid) :
  (forall b1 b2, snapshot b1 = snapshot b2 -> snapshot (upd b1) = snapshot (upd b2)) ->
  same_snapshots boids1 boids2 ->
  same_snapshots (replace_nth i upd boids1) (replace_nth i upd boids2).
Proof.
  unfold same_snapshots. intros Hupd. revert i boids2.
  induction boids1 as [|b1 rest1 IH]; intros i [|b2 rest2] H; simpl in H; try discriminate.
  - destruct i; reflexivity.
  - assert (Hb : snapshot b1 = snapshot b2) by congruence.
    assert (Hrest : map snapshot rest1 = map snapshot rest2) by congruence.
    destruct i as [|i]; simpl.
    + rewrite (Hupd b1 b2 Hb), Hrest. reflexivity.
    + rewrite Hb, (IH i rest2 Hrest). reflexivity.
Qed.

Lemma snapshot_determined_ret {A} (a : A) : snapshot_determined (ret a).
Proof. intros boids1 boids2 H. simpl. split; [reflexivity | exact H]. Qed.

Lemma snapshot_determined_lift {A} (r : result A) : snapshot_determined (lift r).
Proof.
  intros boids1 boids2 H. unfold lift. destruct r; simpl; [split; auto | reflexivity].
Qed.

Lemma snapshot_determined_len : snapshot_determined len.
Proof.
  intros boids1 boids2 H. simpl. split; [|exact H].
  rewrite <- (length_map snapshot boids1), <- (length_map snapshot boids2).
  f_equal. exact H.
Qed.

Lemma snapshot_determined_get_attr {A} (attr : Boid -> A) (i : nat) :
  (forall b1 b2, snapshot b1 = snapshot b2 -> attr b1 = attr b2) ->
  snapshot_determined (get_attr attr i).
Proof.
  intros Hattr boids1 boids2 H. unfold get_attr.
  pose proof (same_snapshots_nth_error boids1 boids2 i H) as Hi.
  destruct (nth_error boids1 i) as [b1|], (nth_error boids2 i) as [b2|];
    simpl; try contradiction; [|reflexivity].
  split; [apply Hattr, Hi | exact H].
Qed.

Lemma snapshot_determined_set_attr (upd : Boid -> Boid) (i : nat) :
  (forall b1 b2, snapshot b1 = snapshot b2 -> snapshot (upd b1) = snapshot (upd b2)) ->
  snapshot_determined (set_attr upd i).
Proof.
  intros Hupd boids1 boids2 H. unfold set_attr.
  pose proof (same_snapshots_nth_error boids1 boids2 i H) as Hi.
  destruct (nth_error boids1 i) as [b1|], (nth_error boids2 i) as [b2|];
    simpl; try contradiction; [|reflexivity].
  split; [reflexivity | apply same_snapshots_replace_nth; assumption].
Qed.

Lemma snapshot_determined_bind {A B} (m : M A) (k : A -> M B) :
  snapshot_determined m -> (forall a, snapshot_determined (k a)) ->
  snapshot_determined (bind m k).
Proof.
  intros Hm Hk boids1 boids2 H. unfold bind.
  specialize (Hm boids1 boids2 H). unfold agree in Hm.
  destruct (m boids1) as [[a1 s1]|e1], (m boids2) as [[a2 s2]|e2]; try contradiction.
  - destruct Hm as [-> Hs]. apply Hk, Hs.
  - exact Hm.
Qed.

Lemma snapshot_determined_for_range {A} (js : list nat) (body : nat -> A -> M A) :
  (forall j acc, snapshot_determined (body j acc)) ->
  forall acc, snapshot_determined (for_range js body acc).
Proof.
  intros Hbody. induction js as [|j js IH]; intros acc; simpl.
  - apply snapshot_determined_ret.
  - apply snapshot_determined_bind; [apply Hbody | exact IH].
Qed.

Lemma snapshot_determined_for_boids {A} (body : nat -> A -> M A) (acc : A) :
  (forall j acc', snapshot_determined (body j acc')) ->
  snapshot_determined (for_boids body acc).
Proof.
  intros Hbody. unfold for_boids.
  apply snapshot_determined_bind;
    [apply snapshot_determined_len | intros n; apply snapshot_determined_for_range, Hbody].
Qed.

Lemma snapshot_position (b1 b2 : Boid) : snapshot b1 = snapshot b2 -> position b1 = position b2.
Proof. unfold snapshot. congruence. Qed.

Lemma snapshot_velocity (b1 b2 : Boid) : snapshot b1 = snapshot b2 -> velocity b1 = velocity b2.
Proof. unfold snapshot. congruence. Qed.

Lemma snapshot_acceleration (b1 b2 : Boid) :
  snapshot b1 = snapshot b2 -> acceleration b1 = acceleration b2.
Proof. unfold snapshot. congruence. Qed.

Lemma snapshot_with_position (p : Vector2) (b1 b2 : Boid) :
  snapshot b1 = snapshot b2 -> snapshot (with_position b1 p) = snapshot (with_position b2 p).
Proof. unfold snapshot, with_position. simpl. congruence. Qed.

Lemma snapshot_with_velocity (v : Vector2) (b1 b2 : Boid) :
  snapshot b1 = snapshot b2 -> snapshot (with_velocity b1 v) = snapshot (with_velocity b2 v).
Proof. unfold snapshot, with_velocity. simpl. congruence. Qed.

Lemma snapshot_with_acceleration (a : Vector2) (b1 b2 : Boid) :
  snapshot b1 = snapshot b2 ->
  snapshot (with_acceleration b1 a) = snapshot (with_acceleration b2 a).
Proof. unfold snapshot, with_acceleration. simpl. congruence. Qed.

Ltac snapshot_determined_tac :=
  unfold_attrs;
  repeat first
    [ apply snapshot_determined_ret
    | apply snapshot_determined_lift
    | apply snapshot_determined_len
    | apply snapshot_determined_get_attr;
      first [ exact snapshot_position | exact snapshot_velocity | exact snapshot_acceleration ]
    | apply snapshot_determined_set_attr;
      first [ apply snapshot_with_position | apply snapshot_with_velocity
            | apply snapshot_with_acceleration ]
    | apply snapshot_determined_for_boids; intros ? [? ?]
    | apply snapshot_determined_bind; [ | intros ? ]
    | match goal with
      | |- snapshot_determined (if ?c then _ else _) => destruct c
      | |- snapshot_determined (match ?p with (_, _) => _ end) => destruct p
      end
    | progress cbv zeta ].

Lemma update_boid_snapshot_determined (dt : R) (mouse_pos : Vector2) (is_attracted : bool)
    (self : nat) :
  snapshot_determined (update_boid dt mouse_pos is_attracted self).
Proof.
  unfold update_boid, apply_behavior, align, cohesion, separation, react_to_mouse,
         update, edges.
  snapshot_determined_tac.
Qed.

Lemma update_all_boids_snapshot_determined (dt : R) (mouse_pos : Vector2)
    (is_attracted : bool) :
  snapshot_determined (update_all_boids dt mouse_pos is_attracted).
Proof.
  unfold update_all_boids. unfold for_boids.
  apply snapshot_determined_bind; [apply snapshot_determined_len | intros n].
  apply snapshot_determined_for_range. intros j acc.
  apply update_boid_snapshot_determined.
Qed.

(** C9: the frame is deterministic.  Two runs of [update_all_boids] with
    the same [dt], pointer position and mode on populations with the
    same positions, velocities and accelerations in the same order end
    alike: if one returns, so does the other and the resulting
    snapshots are identical; if one raises, the other raises the same
    exception. *)
Theorem update_all_boids_deterministic (dt : R) (mouse_pos : Vector2) (is_attracted : bool)
    (boids1 boids2 : list Boid) :
  map snapshot boids1 = map snapshot boids2 ->
  (forall after1 : list Boid,
      update_all_boids dt mouse_pos is_attracted boids1 = Ok (tt, after1) ->
      exists after2 : list Boid,
        update_all_boids dt mouse_pos is_attracted boids2 = Ok (tt, after2)
        /\ map snapshot after1 = map snapshot after2)
  /\ (forall e : exn,
        update_all_boids dt mouse_pos is_attracted boids1 = Raise e ->
        update_all_boids dt mouse_pos is_attracted boids2 = Raise e).
Proof.
  intros H.
  pose proof (update_all_boids_snapshot_determined dt mouse_pos is_attracted
                boids1 boids2 H) as Hagree.
  unfold agree in Hagree. split.
  - intros after1 H1. rewrite H1 in Hagree.
    destruct (update_all_boids dt mouse_pos is_attracted boids2) as [[[] after2]|e2];
      [|contradiction].
    exists after2. split; [reflexivity | apply Hagree].
  - intros e H1. rewrite H1 in Hagree.
    destruct (update_all_boids dt mouse_pos is_attracted boids2) as [[u after2]|e2];
      [contradiction | congruence].
Qed.

Lemma update_all_boids_deterministic_witness :
  map snapshot [leader; follower] = map snapshot pair_with_history
  /\ (forall after1 : list Boid,
        update_all_boids 1 pointer_far false [leader; follower] = Ok (tt, after1) ->
        exists after2 : list Boid,
          update_all_boids 1 pointer_far false pair_with_history = Ok (tt, after2)
          /\ map snapshot after1 = map snapshot after2)
  /\ (forall e : exn,
        update_all_boids 1 pointer_far false [leader; follower] = Raise e ->
        update_all_boids 1 pointer_far false pair_with_history = Raise e).
Proof.
  split; [reflexivity|].
  apply (update_all_boids_deterministic 1 pointer_far false [leader; follower]
           pair_with_history).
  reflexivity.
Defined.

(** ** Growing and shrinking the population *)

Lemma Boid_init_cases (d : draws) :
  (exists b, Boid_init d = Ok b)
  \/ (Boid_init d = Raise ValueError /\ uniform_x d = 0 /\ uniform_y d = 0).
Proof.
  unfold Boid_init. cbv zeta.
  destruct (pygame.normalize (pygame.mkVector2 (uniform_x d) (uniform_y d))) as [n|e] eqn:E.
  - left. eexists. reflexivity.
  - right. apply normalize_zero_inv in E. destruct E as [-> E].
    apply length_zero_inv in E. inversion E. auto.
Qed.

Lemma new_boids_cases (rand : nat -> draws) (ks : list nat) :
  (exists more, new_boids rand ks = Ok more /\ List.length more = List.length ks)
  \/ (new_boids rand ks = Raise ValueError
      /\ exists k, In k ks /\ uniform_x (rand k) = 0 /\ uniform_y (rand k) = 0).
Proof.
  induction ks as [|k ks IH]; simpl.
  - left. exists []. split; reflexivity.
  - destruct (Boid_init_cases (rand k)) as [[b Hb] | (Hb & Hx & Hy)]; rewrite Hb.
    + destruct IH as [(more & Hm & Hlen) | (Hm & k' & Hin & Hx & Hy)]; rewrite Hm.
      * left. exists (b :: more). split; [reflexivity | simpl; congruence].
      * right. split; [reflexivity|]. exists k'. auto.
    + right. split; [reflexivity|]. exists k. auto.
Qed.

Lemma pop_run (boids : list Boid) :
  boids <> [] -> exists b, pop boids = Ok (b, removelast boids).
Proof.
  intros Hne. unfold pop. destruct (rev boids) as [|b rest] eqn:E.
  - apply (f_equal (@rev Boid)) in E. rewrite rev_involutive in E. contradiction.
  - exists b. reflexivity.
Qed.

Lemma pops_run (js : list nat) (boids : list Boid) :
  (List.length js <= List.length boids)%nat ->
  for_range js (fun _ _ => pop ;;; ret tt) tt boids
  = Ok (tt, firstn (List.length boids - List.length js) boids).
Proof.
  revert boids. induction js as [|j js IH]; intros boids Hle; simpl.
  - rewrite Nat.sub_0_r, firstn_all. reflexivity.
  - simpl in Hle.
    destruct (pop_run boids) as [b Hb]; [intros ->; simpl in Hle; lia|].
    rewrite bind_assoc, (bind_Ok _ _ _ _ _ Hb), run_ret.
    rewrite removelast_firstn_len.
    rewrite IH by (rewrite length_firstn; lia).
    rewrite firstn_firstn, length_firstn. do 3 f_equal. lia.
Qed.

Lemma shrink_run (n : nat) (boids : list Boid) :
  shrink n boids
  = Ok (tt, firstn (List.length boids - Nat.min n (List.length boids)) boids).
Proof.
  unfold shrink.
  rewrite (bind_Ok len _ boids boids (List.length boids) eq_refl).
  rewrite pops_run; rewrite length_seq; [reflexivity | lia].
Qed.

(** C8: growing by [n] adds exactly [n] boids at the end of the list
    (unless a constructor draws the zero vector as direction and raises
    from [normalize], in which case nothing is added); shrinking by [n]
    never fails and removes the last [min n p] boids of a population of
    [p], so the population never becomes negative, and shrinking a
    population of 5 by 1000 leaves none. *)
Theorem population_resizing (boids : list Boid) (n : nat) (rand : nat -> draws) :
  ((exists more : list Boid,
       grow n rand boids = Ok (tt, boids ++ more)
       /\ List.length (boids ++ more) = (List.length boids + n)%nat)
   \/ (grow n rand boids = Raise ValueError
       /\ exists k : nat, (k < n)%nat /\ uniform_x (rand k) = 0 /\ uniform_y (rand k) = 0))
  /\ (exists rest : list Boid,
        shrink n boids = Ok (tt, rest)
        /\ List.length rest = (List.length boids - Nat.min n (List.length boids))%nat
        /\ rest = firstn (List.length rest) boids)
  /\ (List.length boids = 5%nat -> shrink 1000 boids = Ok (tt, [])).
Proof.
  split; [|split].
  - unfold grow.
    destruct (new_boids_cases rand (seq 0 n)) as [(more & Hm & Hlen) | (Hm & k & Hin & Hx & Hy)].
    + left. exists more. rewrite Hm. split; [reflexivity|].
      rewrite length_app, Hlen, length_seq. reflexivity.
    + right. rewrite Hm. split; [reflexivity|]. exists k.
      apply in_seq in Hin. repeat split; [lia | exact Hx | exact Hy].
  - eexists. split; [apply shrink_run|].
    rewrite length_firstn. split; [lia|]. f_equal. lia.
  - intros H5. rewrite shrink_run, H5. reflexivity.
Qed.

(** ** The only exception of a frame is [ValueError] *)

Lemma update_boid_cases (dt : R) (mouse_pos : Vector2) (is_attracted : bool)
    (self : nat) (boids : list Boid) (s : Boid) :
  nth_error boids self = Some s ->
  update_boid dt mouse_pos is_attracted self boids = Raise ValueError
  \/ exists boids', update_boid dt mouse_pos is_attracted self boids = Ok (tt, boids')
                    /\ List.length boids' = List.length boids.
Proof.
  intros Hs.
  assert (H1 : align self boids = Raise ValueError
               \/ exists f, align self boids = Ok (f, boids) /\ pygame.length f <= MAX_FORCE).
  { rewrite (align_run boids self s Hs).
    apply (flocking_cases PERCEPTION align_term boids self s
             (fun steering total => (steering / INR total)%V)). }
  assert (H2 : cohesion self boids = Raise ValueError
               \/ exists f, cohesion self boids = Ok (f, boids)
                            /\ pygame.length f <= MAX_FORCE).
  { rewrite (cohesion_run boids self s Hs).
    apply (flocking_cases PERCEPTION cohesion_term boids self s
             (fun steering total => (steering / INR total - position s)%V)). }
  assert (H3 : separation self boids = Raise ValueError
               \/ exists f, separation self boids = Ok (f, boids)
                            /\ pygame.length f <= MAX_FORCE).
  { rewrite (separation_run boids self s Hs).
    apply (flocking_cases SEPARATION separation_term boids self s
             (fun steering total => (steering / INR total)%V)). }
  destruct H1 as [H1 | (f1 & H1 & _)].
  { left. unfold update_boid, apply_behavior. do 2 apply bind_Raise. exact H1. }
  destruct H2 as [H2 | (f2 & H2 & _)].
  { left. unfold update_boid, apply_behavior. apply bind_Raise.
    rewrite (bind_Ok _ _ _ _ _ H1). apply bind_Raise. exact H2. }
  destruct H3 as [H3 | (f3 & H3 & _)].
  { left. unfold update_boid, apply_behavior. apply bind_Raise.
    rewrite (bind_Ok _ _ _ _ _ H1), (bind_Ok _ _ _ _ _ H2). apply bind_Raise. exact H3. }
  right. eexists. split.
  - apply (update_boid_run boids self s dt mouse_pos is_attracted f1 f2 f3
             (mouse_force s mouse_pos is_attracted) Hs H1 H2 H3).
    apply (react_to_mouse_run boids self s _ _ Hs).
  - apply replace_nth_length.
Qed.

Lemma frame_raises_ValueError (dt : R) (mouse_pos : Vector2) (is_attracted : bool)
    (m k : nat) (boids : list Boid) (e : exn) :
  (k + m <= List.length boids)%nat ->
  for_range (seq k m) (fun boid _ => update_boid dt mouse_pos is_attracted boid) tt boids
  = Raise e ->
  e = ValueError.
Proof.
  revert k boids. induction m as [|m IH]; intros k boids Hlen H; simpl in H.
  - discriminate.
  - destruct (nth_error boids k) as [s|] eqn:Hs.
    + destruct (update_boid_cases dt mouse_pos is_attracted k boids s Hs)
        as [Hk | (boids' & Hk & Hl)].
      * rewrite (bind_Raise _ _ _ _ Hk) in H. congruence.
      * rewrite (bind_Ok _ _ _ _ _ Hk) in H. apply (IH (S k) boids'); [lia | exact H].
    + apply nth_error_None in Hs. lia.
Qed.

(** No frame ends in [Dangling] or [IndexError]: every boid the loop
    visits is in the list. *)
Lemma update_all_boids_not_dangling (dt : R) (mouse_pos : Vector2) (is_attracted : bool)
    (boids : list Boid) (e : exn) :
  update_all_boids dt mouse_pos is_attracted boids = Raise e -> e = ValueError.
Proof.
  unfold update_all_boids, for_boids.
  rewrite (bind_Ok len _ boids boids (List.length boids) eq_refl).
  apply frame_raises_ValueError. lia.
Qed.

(** The handlers of the program remove and add ten boids. *)
Example key_down_three (b1 b2 b3 : Boid) : key_down [b1; b2; b3] = Ok (tt, []).
Proof. unfold key_down. rewrite shrink_run. reflexivity. Qed.

(** The pointer 10 to the right of a boid, in attraction mode, pulls it
    to the right with [MOUSE_FORCE]. *)
Example react_to_mouse_attracts :
  react_to_mouse 0 (pygame.mkVector2 20 20) true [resting_boid]
  = Ok (pygame.mkVector2 30 0, [resting_boid]).
Proof.
  rewrite (react_to_mouse_run [resting_boid] 0 resting_boid _ _ eq_refl).
  unfold mouse_force. cbv zeta.
  replace (pygame.distance_to (position resting_boid) (pygame.mkVector2 20 20)) with 10
    by (symmetry; distance_is 10).
  replace (pygame.length (pygame.mkVector2 20 20 - position resting_boid)) with 10
    by (symmetry; length_is 10).
  rewrite Rltb_true by (unfold MOUSE_PERCEPTION; lra).
  rewrite Rgtb_true by lra. cbn [andb].
  unfold clamp_force.
  replace (pygame.length ((pygame.mkVector2 20 20 - position resting_boid) / 10 * MOUSE_FORCE))
    with 30 by (symmetry; apply (length_eq _ 30); unfold MOUSE_FORCE; eval_vectors; lra).
  rewrite Rgtb_false by (unfold MAX_FORCE; lra).
  do 2 f_equal. unfold MOUSE_FORCE. vec_eq.
Qed.

(** * Further properties of the code *)

#[local] Hint Unfold still one_draw : samples.

(** ** More on vectors *)

Lemma le_by_squares (a b : R) : 0 <= b -> a * a <= b * b -> a <= b.
Proof. intros Hb H. destruct (Rle_dec a b); [assumption|]. nra. Qed.

Lemma length_triangle (u v : Vector2) :
  pygame.length (u + v) <= pygame.length u + pygame.length v.
Proof.
  pose proof (length_nonneg u) as Hu. pose proof (length_nonneg v) as Hv.
  pose proof (length_nonneg (u + v)) as Huv.
  pose proof (length_square u) as Su. pose proof (length_square v) as Sv.
  pose proof (length_square (u + v)) as Suv.
  cbn [pygame.add pygame.x pygame.y] in Suv.
  generalize dependent (pygame.length (u + v)). intros l Huv Suv.
  generalize dependent (pygame.length u). intros lu Hu Su.
  generalize dependent (pygame.length v). intros lv Hv Sv.
  generalize dependent (pygame.x u). intros a.
  generalize dependent (pygame.y u). intros b.
  generalize dependent (pygame.x v). intros c.
  generalize dependent (pygame.y v). intros d. intros.
  apply le_by_squares; [lra|].
  assert (Hcs : a * c + b * d <= lu * lv).
  { apply le_by_squares; [nra|].
    replace (lu * lv * (lu * lv)) with ((lu*lu) * (lv*lv)) by ring. rewrite Su, Sv.
    pose proof (Rle_0_sqr (a * d - b * c)) as Hsq. unfold Rsqr in Hsq. nra. }
  nra.
Qed.

Lemma length_mul_abs (u : Vector2) (k : R) :
  pygame.length (u * k) = pygame.length u * Rabs k.
Proof.
  pose proof (length_nonneg u) as Hu. pose proof (length_square u) as Su.
  apply length_eq.
  - apply Rmult_le_pos; [exact Hu | apply Rabs_pos].
  - simpl. replace (pygame.length u * Rabs k * (pygame.length u * Rabs k))
      with ((pygame.length u * pygame.length u) * (Rabs k * Rabs k)) by ring.
    rewrite Su. replace (Rabs k * Rabs k) with (k * k).
    + ring.
    + rewrite <- Rabs_mult. rewrite Rabs_pos_eq; [reflexivity | nra].
Qed.

Lemma length_neg (u : Vector2) : pygame.length (- u) = pygame.length u.
Proof. unfold pygame.length. simpl. f_equal. ring. Qed.

Lemma neg_mul (u : Vector2) (k : R) : (- u * k)%V = (- (u * k))%V.
Proof. unfold pygame.neg, pygame.mul. simpl. f_equal; ring. Qed.

Lemma add_zero_r (a : Vector2) : (a + pygame.zero)%V = a.
Proof. destruct a. unfold pygame.add, pygame.zero. simpl. f_equal; ring. Qed.

Lemma zero_mul (k : R) : (pygame.zero * k)%V = pygame.zero.
Proof. unfold pygame.mul, pygame.zero. simpl. f_equal; ring. Qed.

Lemma sub_zero_r (u : Vector2) : (u - pygame.zero)%V = u.
Proof. destruct u. unfold pygame.sub, pygame.zero. simpl. f_equal; ring. Qed.

Lemma distance_to_add (p w : Vector2) : pygame.distance_to p (p + w) = pygame.length w.
Proof. unfold pygame.distance_to, pygame.length. simpl. f_equal. ring. Qed.

Lemma distance_to_accumulated (a f1 f2 f3 f4 : Vector2) :
  pygame.distance_to a (a + f1 + f2 + f3 + f4) = pygame.length (f1 + f2 + f3 + f4).
Proof. unfold pygame.distance_to, pygame.length. simpl. f_equal. ring. Qed.



Lemma normalize_scale (u : Vector2) (c : R) :
  0 < c -> pygame.normalize (u * c) = pygame.normalize u.
Proof.
  intros Hc. unfold pygame.normalize.
  rewrite length_mul_abs, (Rabs_pos_eq c) by lra.
  destruct (Req_dec_T (pygame.length u) 0) as [E | E].
  - rewrite E, Rmult_0_l. destruct (Req_dec_T 0 0); [reflexivity | contradiction].
  - destruct (Req_dec_T (pygame.length u * c) 0) as [E' | E'].
    + exfalso. apply Rmult_integral in E'. destruct E'; [contradiction | lra].
    + f_equal. unfold pygame.div, pygame.mul. simpl. f_equal; field; split; lra || assumption.
Qed.

(** ** Boid.__init__ and the initial population *)

Lemma Boid_init_Ok_inv (d : draws) (b : Boid) :
  Boid_init d = Ok b ->
  0 <= uniform_speed d ->
  position b = pygame.mkVector2 (IZR (randint_x d)) (IZR (randint_y d))
  /\ pygame.length (velocity b) = uniform_speed d
  /\ acceleration b = pygame.zero
  /\ life_history b = repeat 0%Z 512.
Proof.
  unfold Boid_init. cbv zeta.
  destruct (pygame.normalize (pygame.mkVector2 (uniform_x d) (uniform_y d)))
    as [n|e] eqn:En; intros H Hspeed; [|discriminate].
  inversion H. subst b. cbn [position velocity acceleration life_history].
  repeat split. apply (length_normalize_mul _ n _ Hspeed En).
Qed.

(** X1: [Boid()] raises [ValueError] when [random] draws the direction
    (0, 0); for any other direction and a speed draw that is not
    negative it returns a boid at the drawn position whose speed is
    exactly the drawn speed, with zero acceleration and a history of
    512 zeros. *)
Theorem Boid_init_outcome (d : draws) :
  (uniform_x d = 0 /\ uniform_y d = 0 -> Boid_init d = Raise ValueError)
  /\ (~ (uniform_x d = 0 /\ uniform_y d = 0) -> 0 <= uniform_speed d ->
      exists b : Boid,
        Boid_init d = Ok b
        /\ position b = pygame.mkVector2 (IZR (randint_x d)) (IZR (randint_y d))
        /\ pygame.length (velocity b) = uniform_speed d
        /\ acceleration b = pygame.zero
        /\ life_history b = repeat 0%Z 512).
Proof.
  split.
  - intros [Hx Hy]. unfold Boid_init. cbv zeta. rewrite normalize_Raise; [reflexivity|].
    apply length_eq; [lra | simpl; rewrite Hx, Hy; ring].
  - intros Hne Hspeed. unfold Boid_init. cbv zeta.
    destruct (pygame.normalize (pygame.mkVector2 (uniform_x d) (uniform_y d)))
      as [n|e] eqn:En.
    + eexists. split; [reflexivity|]. cbn [position velocity acceleration life_history].
      repeat split. apply (length_normalize_mul _ n _ Hspeed En).
    + exfalso. apply Hne. apply normalize_zero_inv in En. destruct En as [_ En].
      apply length_zero_inv in En. inversion En. auto.
Qed.

(** X2: when the draws are in the ranges the program uses (position in
    the world, speed between 1 and [MAX_SPEED]) and the list
    comprehension [[Boid() for _ in ...]] returns, it has one boid per
    request, each inside the world, with a speed between 1 and
    [MAX_SPEED] and zero acceleration. *)
Theorem new_boids_invariants (rand : nat -> draws) (ks : list nat) (bs : list Boid) :
  (forall k, In k ks ->
     0 <= IZR (randint_x (rand k)) <= WIDTH
     /\ 0 <= IZR (randint_y (rand k)) <= HEIGHT
     /\ 1 <= uniform_speed (rand k) <= MAX_SPEED) ->
  new_boids rand ks = Ok bs ->
  List.length bs = List.length ks
  /\ forall b, In b bs ->
       0 <= pygame.x (position b) <= WIDTH
       /\ 0 <= pygame.y (position b) <= HEIGHT
       /\ 1 <= pygame.length (velocity b) <= MAX_SPEED
       /\ acceleration b = pygame.zero.
Proof.
  revert bs. induction ks as [|k ks IH]; intros bs Hrange H; simpl in H.
  - inversion H. split; [reflexivity | intros b []].
  - destruct (Boid_init (rand k)) as [b0|e] eqn:Hb; [|discriminate].
    destruct (new_boids rand ks) as [bs0|e] eqn:Hbs; [|discriminate].
    inversion H. subst bs.
    destruct (IH bs0 (fun k' Hin => Hrange k' (or_intror Hin)) eq_refl) as [Hlen Hall].
    split; [simpl; congruence|].
    intros b [<- | Hin]; [|apply Hall, Hin].
    destruct (Hrange k (or_introl eq_refl)) as (Hx & Hy & Hv).
    destruct (Boid_init_Ok_inv _ _ Hb ltac:(lra)) as (Hp & Hl & Ha & _).
    rewrite Hp, Hl. cbn [pygame.x pygame.y]. repeat split; try lra. exact Ha.
Qed.

Lemma Boid_init_one_draw :
  Boid_init one_draw
  = Ok (mkBoid (pygame.mkVector2 5 5) (pygame.mkVector2 1 0 / 1 * 10)%V pygame.zero
          (repeat 0%Z 512)).
Proof.
  unfold Boid_init, one_draw. cbv zeta.
  cbn [randint_x randint_y uniform_x uniform_y uniform_speed].
  rewrite normalize_Ok;
    replace (pygame.length (pygame.mkVector2 1 0)) with 1
      by (symmetry; apply length_eq; simpl; lra); [reflexivity | lra].
Qed.

Lemma new_boids_invariants_witness :
  new_boids (fun _ => one_draw) [0%nat]
  = Ok [mkBoid (pygame.mkVector2 5 5) (pygame.mkVector2 1 0 / 1 * 10)%V pygame.zero
          (repeat 0%Z 512)]
  /\ forall b,
       In b [mkBoid (pygame.mkVector2 5 5) (pygame.mkVector2 1 0 / 1 * 10)%V pygame.zero
               (repeat 0%Z 512)] ->
       0 <= pygame.x (position b) <= WIDTH
       /\ 0 <= pygame.y (position b) <= HEIGHT
       /\ 1 <= pygame.length (velocity b) <= MAX_SPEED
       /\ acceleration b = pygame.zero.
Proof.
  assert (Hrun : new_boids (fun _ => one_draw) [0%nat]
                 = Ok [mkBoid (pygame.mkVector2 5 5) (pygame.mkVector2 1 0 / 1 * 10)%V
                         pygame.zero (repeat 0%Z 512)]).
  { cbn [new_boids]. rewrite Boid_init_one_draw. reflexivity. }
  split; [exact Hrun|].
  apply (new_boids_invariants (fun _ => one_draw) [0%nat] _).
  - intros k _. unfold one_draw, WIDTH, HEIGHT, MAX_SPEED.
    cbn [randint_x randint_y uniform_speed]. lra.
  - exact Hrun.
Defined.

(** ** Boid.update and Boid.edges *)

Lemma limited_slow (v : Vector2) : pygame.length v <= MAX_SPEED -> limited v = v.
Proof. intros H. unfold limited. rewrite Rgtb_false by exact H. reflexivity. Qed.

(** X3: [update] moves a boid by at most [MAX_SPEED] times [|dt|],
    whatever its velocity and acceleration were. *)
Theorem update_moves_at_most (boids : list Boid) (self : nat) (b : Boid) (dt : R) :
  nth_error boids self = Some b ->
  exists b' : Boid,
    update self dt boids = Ok (tt, replace_nth self (fun _ => b') boids)
    /\ pygame.distance_to (position b) (position b') <= MAX_SPEED * Rabs dt.
Proof.
  intros Hb. eexists. split; [apply (update_run boids self b dt Hb)|].
  cbv zeta. cbn [position]. rewrite distance_to_add, length_mul_abs.
  apply Rmult_le_compat_r; [apply Rabs_pos | apply limited_length].
Qed.

Lemma update_moves_at_most_witness :
  nth_error [resting_boid] 0 = Some resting_boid
  /\ exists b' : Boid,
       update 0 1 [resting_boid] = Ok (tt, replace_nth 0 (fun _ => b') [resting_boid])
       /\ pygame.distance_to (position resting_boid) (position b') <= MAX_SPEED * Rabs 1.
Proof.
  split; [reflexivity | apply (update_moves_at_most [resting_boid] 0 resting_boid 1)].
  reflexivity.
Defined.

Lemma wrap_wrap (limit c : R) : 0 <= limit -> wrap limit (wrap limit c) = wrap limit c.
Proof. intros H. apply wrap_inside, wrap_range, H. Qed.

(** X4: [edges] is idempotent: a second call changes nothing. *)
Theorem edges_idempotent (boids : list Boid) (self : nat) (b : Boid) :
  nth_error boids self = Some b ->
  exists boids' : list Boid,
    edges self boids = Ok (tt, boids') /\ edges self boids' = Ok (tt, boids').
Proof.
  intros Hb. eexists. split; [apply (edges_run boids self b Hb)|].
  match goal with |- edges self (replace_nth self (fun _ => ?x) boids) = _ => set (b1 := x) end.
  rewrite (edges_run _ self b1 (nth_error_replace_nth_eq self (fun _ => b1) boids b Hb)).
  rewrite replace_nth_const_twice. do 2 f_equal.
  apply (replace_nth_ext _ _ _ _ b Hb). subst b1. unfold with_position.
  cbn [position velocity acceleration life_history pygame.x pygame.y].
  rewrite !wrap_wrap by (pose proof WIDTH_pos; pose proof HEIGHT_pos; lra). reflexivity.
Qed.

Lemma edges_idempotent_witness :
  nth_error [left_of_world] 0 = Some left_of_world
  /\ exists boids' : list Boid,
       edges 0 [left_of_world] = Ok (tt, boids') /\ edges 0 boids' = Ok (tt, boids').
Proof.
  split; [reflexivity | apply (edges_idempotent [left_of_world] 0 left_of_world)].
  reflexivity.
Defined.

(** ** Boid.react_to_mouse *)

Lemma clamp_force_small (f : Vector2) : pygame.length f <= MAX_FORCE -> clamp_force f = f.
Proof. intros H. unfold clamp_force. rewrite Rgtb_false by exact H. reflexivity. Qed.

Lemma MOUSE_FORCE_small : 0 <= MOUSE_FORCE <= MAX_FORCE.
Proof. unfold MOUSE_FORCE, MAX_FORCE. lra. Qed.

(** X5: when the pointer is at a distance strictly between 0 and
    [MOUSE_PERCEPTION], the force of [react_to_mouse] has length exactly
    [MOUSE_FORCE] (the limit [MAX_FORCE] never applies), points from the
    boid to the pointer in attraction mode, and is the exact opposite
    in repulsion mode; at distance 0 or at [MOUSE_PERCEPTION] and beyond
    it is the zero vector in both modes. *)
Theorem react_to_mouse_force (boids : list Boid) (self : nat) (s : Boid) (mouse_pos : Vector2) :
  nth_error boids self = Some s ->
  (0 < pygame.distance_to (position s) mouse_pos < MOUSE_PERCEPTION ->
   exists f : Vector2,
     react_to_mouse self mouse_pos true boids = Ok (f, boids)
     /\ react_to_mouse self mouse_pos false boids = Ok ((- f)%V, boids)
     /\ pygame.length f = MOUSE_FORCE
     /\ f = ((mouse_pos - position s)
             * (MOUSE_FORCE / pygame.distance_to (position s) mouse_pos))%V)
  /\ (~ 0 < pygame.distance_to (position s) mouse_pos < MOUSE_PERCEPTION ->
      forall is_attracted : bool,
        react_to_mouse self mouse_pos is_attracted boids = Ok (pygame.zero, boids)).
Proof.
  intros Hs. split.
  - intros Hd.
    set (diff := (mouse_pos - position s)%V).
    assert (Hn : pygame.normalize diff = Ok (diff / pygame.length diff)%V).
    { apply normalize_Ok. unfold diff. rewrite <- distance_to_length. lra. }
    pose proof (length_normalize_mul diff _ MOUSE_FORCE (proj1 MOUSE_FORCE_small) Hn) as Hlen.
    exists (diff / pygame.length diff * MOUSE_FORCE)%V.
    rewrite !(react_to_mouse_run boids self s _ _ Hs). unfold mouse_force. cbv zeta.
    rewrite Rltb_true, Rgtb_true by lra. cbn [andb]. fold diff.
    repeat split.
    + rewrite clamp_force_small; [reflexivity|]. rewrite Hlen. apply MOUSE_FORCE_small.
    + rewrite neg_mul, clamp_force_small; [reflexivity|].
      rewrite length_neg, Hlen. apply MOUSE_FORCE_small.
    + exact Hlen.
    + rewrite (distance_to_length (position s) mouse_pos). fold diff.
      apply normalize_mul_direction. exact Hn.
  - intros Hd is_attracted.
    rewrite (react_to_mouse_run boids self s _ _ Hs). unfold mouse_force. cbv zeta.
    destruct (Rltb _ MOUSE_PERCEPTION) eqn:E1; [|reflexivity].
    destruct (Rgtb _ 0) eqn:E2; [|reflexivity].
    apply Rltb_spec in E1. apply Rgtb_spec in E2. exfalso. apply Hd. lra.
Qed.

Lemma react_to_mouse_force_witness :
  nth_error [resting_boid] 0 = Some resting_boid
  /\ (0 < pygame.distance_to (position resting_boid) (pygame.mkVector2 20 20)
          < MOUSE_PERCEPTION ->
      exists f : Vector2,
        react_to_mouse 0 (pygame.mkVector2 20 20) true [resting_boid]
        = Ok (f, [resting_boid])
        /\ react_to_mouse 0 (pygame.mkVector2 20 20) false [resting_boid]
           = Ok ((- f)%V, [resting_boid])
        /\ pygame.length f = MOUSE_FORCE
        /\ f = ((pygame.mkVector2 20 20 - position resting_boid)
                * (MOUSE_FORCE
                   / pygame.distance_to (position resting_boid) (pygame.mkVector2 20 20)))%V)
  /\ (~ 0 < pygame.distance_to (position resting_boid) (pygame.mkVector2 20 20)
          < MOUSE_PERCEPTION ->
      forall is_attracted : bool,
        react_to_mouse 0 (pygame.mkVector2 20 20) is_attracted [resting_boid]
        = Ok (pygame.zero, [resting_boid])).
Proof.
  split; [reflexivity|].
  apply (react_to_mouse_force [resting_boid] 0 resting_boid (pygame.mkVector2 20 20)).
  reflexivity.
Defined.

Lemma mouse_force_length (s : Boid) (mouse_pos : Vector2) (is_attracted : bool) :
  pygame.length (mouse_force s mouse_pos is_attracted) <= MOUSE_FORCE.
Proof.
  unfold mouse_force. cbv zeta.
  destruct (Rltb _ MOUSE_PERCEPTION) eqn:E1; cbn [andb];
    [|rewrite length_zero; apply MOUSE_FORCE_small].
  destruct (Rgtb _ 0) eqn:E2; [|rewrite length_zero; apply MOUSE_FORCE_small].
  apply Rgtb_spec in E2.
  set (diff := (mouse_pos - position s)%V).
  assert (Hn : pygame.normalize diff = Ok (diff / pygame.length diff)%V).
  { apply normalize_Ok. unfold diff. rewrite <- distance_to_length. lra. }
  pose proof (length_normalize_mul diff _ MOUSE_FORCE (proj1 MOUSE_FORCE_small) Hn) as Hlen.
  destruct is_attracted.
  - rewrite clamp_force_small; rewrite Hlen; [lra | apply MOUSE_FORCE_small].
  - rewrite neg_mul, clamp_force_small; rewrite length_neg, Hlen;
      [lra | apply MOUSE_FORCE_small].
Qed.

(** ** When the flocking behaviours raise, and what one neighbour does *)






Lemma fold_gather_none_in (radius : R) (term : Boid -> Boid -> Vector2) (boids : list Boid)
    (self : nat) (s : Boid) (js : list nat) (acc : Vector2 * nat) :
  (forall j boid, In j js -> nth_error boids j = Some boid ->
     qualifies radius self s j boid = false) ->
  fold_left (gather radius term boids self s) js acc = acc.
Proof.
  revert acc. induction js as [|j js IH]; intros acc Hnone; simpl.
  - reflexivity.
  - rewrite IH by (intros j' boid Hin; apply Hnone; right; exact Hin).
    unfold gather. destruct (nth_error boids j) as [boid|] eqn:Hj; [|reflexivity].
    rewrite (Hnone j boid (or_introl eq_refl) Hj). reflexivity.
Qed.

Lemma seq_split_at (n j : nat) :
  (j < n)%nat -> seq 0 n = seq 0 j ++ j :: seq (S j) (n - S j).
Proof.
  intros Hj. replace n with (j + S (n - S j))%nat at 1 by lia.
  rewrite seq_app. reflexivity.
Qed.

Lemma scan_single (radius : R) (term : Boid -> Boid -> Vector2) (boids : list Boid)
    (self : nat) (s : Boid) (j : nat) (b : Boid) :
  nth_error boids j = Some b ->
  qualifies radius self s j b = true ->
  (forall k boid, nth_error boids k = Some boid -> k <> j ->
     qualifies radius self s k boid = false) ->
  scan radius term boids self s = ((pygame.zero + term s b)%V, 1%nat).
Proof.
  intros Hj Hq Hothers. unfold scan.
  assert (Hlt : (j < List.length boids)%nat).
  { apply nth_error_Some. rewrite Hj. discriminate. }
  rewrite (seq_split_at _ j Hlt), fold_left_app. cbn [fold_left].
  rewrite (fold_gather_none_in radius term boids self s (seq 0 j)).
  2:{ intros k boid Hin Hk. apply (Hothers k boid Hk). apply in_seq in Hin. lia. }
  rewrite fold_gather_none_in.
  2:{ intros k boid Hin Hk. apply (Hothers k boid Hk). apply in_seq in Hin. lia. }
  unfold gather. rewrite Hj, Hq. reflexivity.
Qed.

Lemma steer_scale (u v : Vector2) (c : R) : 0 < c -> steer (u * c) v = steer u v.
Proof. intros Hc. unfold steer. rewrite normalize_scale by exact Hc. reflexivity. Qed.

(** For a boid at rest the force has full strength in the desired
    direction. *)
Lemma steer_resting (desired : Vector2) :
  pygame.length desired <> 0 ->
  steer desired pygame.zero = Ok (desired * (MAX_FORCE / pygame.length desired))%V.
Proof.
  intros Hl. unfold steer.
  assert (Hn : pygame.normalize desired = Ok (desired / pygame.length desired)%V)
    by (apply normalize_Ok, Hl).
  rewrite Hn, sub_zero_r. f_equal. unfold clamp_force.
  rewrite (length_normalize_mul desired _ MAX_SPEED) by (pose proof MAX_SPEED_pos; lra || exact Hn).
  rewrite Rgtb_true by (unfold MAX_SPEED, MAX_FORCE; lra).
  unfold pygame.mul, pygame.div, MAX_SPEED, MAX_FORCE. simpl. f_equal; field; exact Hl.
Qed.

(** X7: a boid at rest with exactly one qualifying neighbour is pulled
    towards it by [cohesion] with a force of length [MAX_FORCE] and
    pushed away by [separation] with exactly the opposite force; if the
    neighbour moves, [align] is the force of length [MAX_FORCE] along the
    neighbour's velocity. *)
Theorem single_neighbour_forces (boids : list Boid) (self : nat) (s : Boid)
    (j : nat) (b : Boid) :
  nth_error boids self = Some s ->
  nth_error boids j = Some b ->
  j <> self ->
  0 < pygame.distance_to (position s) (position b) < PERCEPTION ->
  pygame.distance_to (position s) (position b) < SEPARATION ->
  (forall k boid, nth_error boids k = Some boid -> k <> self -> k <> j ->
     ~ (0 < pygame.distance_to (position s) (position boid) < PERCEPTION)
     /\ ~ (0 < pygame.distance_to (position s) (position boid) < SEPARATION)) ->
  velocity s = pygame.zero ->
  cohesion self boids
  = Ok (((position b - position s)
         * (MAX_FORCE / pygame.distance_to (position s) (position b)))%V, boids)
  /\ separation self boids
     = Ok (((position s - position b)
            * (MAX_FORCE / pygame.distance_to (position s) (position b)))%V, boids)
  /\ (velocity b <> pygame.zero ->
      align self boids
      = Ok ((velocity b * (MAX_FORCE / pygame.length (velocity b)))%V, boids)).
Proof.
  intros Hs Hj Hne Hd Hd' Hothers Hrest.
  set (d := pygame.distance_to (position s) (position b)) in *.
  assert (HqP : qualifies PERCEPTION self s j b = true)
    by (apply (qualifies_true _ _ _ _ _ d); [exact Hne | reflexivity | lra]).
  assert (HqS : qualifies SEPARATION self s j b = true)
    by (apply (qualifies_true _ _ _ _ _ d); [exact Hne | reflexivity | lra]).
  assert (HoP : forall k boid, nth_error boids k = Some boid -> k <> j ->
                  qualifies PERCEPTION self s k boid = false).
  { intros k boid Hk Hkj. apply not_qualifies. intros Hks.
    apply (Hothers k boid Hk Hks Hkj). }
  assert (HoS : forall k boid, nth_error boids k = Some boid -> k <> j ->
                  qualifies SEPARATION self s k boid = false).
  { intros k boid Hk Hkj. apply not_qualifies. intros Hks.
    apply (Hothers k boid Hk Hks Hkj). }
  assert (Hlen : pygame.length (position b - position s) = d)
    by (symmetry; apply distance_to_length).
  assert (Hlen' : pygame.length (position s - position b) = d)
    by (rewrite <- distance_to_length; apply distance_to_sym).
  split; [|split].
  - rewrite (cohesion_run boids self s Hs).
    rewrite (scan_single _ _ _ _ _ j b Hj HqP HoP). cbn [Nat.ltb Nat.leb INR].
    rewrite Hrest.
    replace (((pygame.zero + cohesion_term s b) / 1 - position s)%V)
      with ((position b - position s)%V)
      by (unfold cohesion_term, pygame.add, pygame.sub, pygame.div, pygame.zero;
          simpl; f_equal; field).
    rewrite steer_resting by (rewrite Hlen; lra). rewrite Hlen. reflexivity.
  - rewrite (separation_run boids self s Hs).
    rewrite (scan_single _ _ _ _ _ j b Hj HqS HoS). cbn [Nat.ltb Nat.leb INR].
    rewrite Hrest. unfold separation_term. cbv zeta. fold d. rewrite Hlen'.
    replace (((pygame.zero + (position s - position b) / d / d) / 1)%V)
      with (((position s - position b) * (1 / (d * d)))%V)
      by (unfold pygame.add, pygame.sub, pygame.div, pygame.mul, pygame.zero;
          simpl; f_equal; field; lra).
    rewrite steer_scale by (apply Rdiv_lt_0_compat; nra).
    rewrite steer_resting by (rewrite Hlen'; lra). rewrite Hlen'. reflexivity.
  - intros Hvb. rewrite (align_run boids self s Hs).
    rewrite (scan_single _ _ _ _ _ j b Hj HqP HoP). cbn [Nat.ltb Nat.leb INR].
    rewrite Hrest.
    replace (((pygame.zero + align_term s b) / 1)%V) with (velocity b)
      by (unfold align_term, pygame.add, pygame.div, pygame.zero;
          destruct (velocity b); simpl; f_equal; field).
    rewrite steer_resting; [reflexivity|].
    intros Hz. apply Hvb. apply length_zero_inv. exact Hz.
Qed.

Lemma distance_still_east : pygame.distance_to (position still) (position east) = 10.
Proof. apply (distance_to_eq _ _ 10); unfold still, east; cbn [pygame.x pygame.y position]; lra. Qed.

Lemma single_neighbour_forces_witness :
  cohesion 0 [still; east]
  = Ok (((position east - position still)
         * (MAX_FORCE / pygame.distance_to (position still) (position east)))%V,
        [still; east])
  /\ separation 0 [still; east]
     = Ok (((position still - position east)
            * (MAX_FORCE / pygame.distance_to (position still) (position east)))%V,
           [still; east])
  /\ (velocity east <> pygame.zero ->
      align 0 [still; east]
      = Ok ((velocity east * (MAX_FORCE / pygame.length (velocity east)))%V,
            [still; east])).
Proof.
  apply (single_neighbour_forces [still; east] 0 still 1 east).
  - reflexivity.
  - reflexivity.
  - discriminate.
  - rewrite distance_still_east. unfold PERCEPTION. lra.
  - rewrite distance_still_east. unfold SEPARATION. lra.
  - intros [|[|k]] boid Hk Hs Hj; simpl in Hk; try congruence.
    destruct k; discriminate.
  - reflexivity.
Defined.

(** ** Boid.apply_behavior *)

Lemma flocking_Ok_bounded (radius : R) (term : Boid -> Boid -> Vector2) (boids : list Boid)
    (self : nat) (s : Boid) (desired : Vector2 -> nat -> Vector2) (f : Vector2)
    (boids' : list Boid) :
  (let (steering, total) := scan radius term boids self s in
   if (0 <? total)%nat
   then lift (steer (desired steering total) (velocity s)) boids
   else Ok (steering, boids)) = Ok (f, boids') ->
  pygame.length f <= MAX_FORCE.
Proof.
  intros H.
  destruct (flocking_cases radius term boids self s desired) as [Hr | (f' & Hf & Hb)].
  - rewrite Hr in H. discriminate.
  - rewrite Hf in H. inversion H. subst. exact Hb.
Qed.

(** X8: one call of [apply_behavior] changes the acceleration of the
    boid by a vector of length at most [3 * MAX_FORCE + MOUSE_FORCE]. *)
Theorem apply_behavior_bounded (boids boids' : list Boid) (self : nat)
    (mouse_pos : Vector2) (is_attracted : bool) :
  apply_behavior self mouse_pos is_attracted boids = Ok (tt, boids') ->
  exists b b' : Boid,
    nth_error boids self = Some b
    /\ nth_error boids' self = Some b'
    /\ pygame.distance_to (acceleration b) (acceleration b') <= 3 * MAX_FORCE + MOUSE_FORCE.
Proof.
  intros H. apply apply_behavior_Ok_inv in H.
  destruct H as (b & f1 & f2 & f3 & f4 & Hb & H1 & H2 & H3 & H4 & ->).
  rewrite (align_run boids self b Hb) in H1.
  apply (flocking_Ok_bounded PERCEPTION align_term boids self b
           (fun steering total => (steering / INR total)%V)) in H1.
  rewrite (cohesion_run boids self b Hb) in H2.
  apply (flocking_Ok_bounded PERCEPTION cohesion_term boids self b
           (fun steering total => (steering / INR total - position b)%V)) in H2.
  rewrite (separation_run boids self b Hb) in H3.
  apply (flocking_Ok_bounded SEPARATION separation_term boids self b
           (fun steering total => (steering / INR total)%V)) in H3.
  rewrite (react_to_mouse_run boids self b _ _ Hb) in H4.
  assert (Hm : f4 = mouse_force b mouse_pos is_attracted) by congruence.
  pose proof (mouse_force_length b mouse_pos is_attracted) as H4'. rewrite <- Hm in H4'.
  exists b. eexists. split; [exact Hb|].
  split; [apply (nth_error_replace_nth_eq self _ boids b Hb)|].
  cbn [acceleration with_acceleration]. rewrite distance_to_accumulated.
  pose proof (length_triangle (f1 + f2 + f3) f4).
  pose proof (length_triangle (f1 + f2) f3).
  pose proof (length_triangle f1 f2). lra.
Qed.

Lemma apply_behavior_bounded_witness :
  apply_behavior 0 pointer_far false [leader; follower] = Ok (tt, [leader; follower])
  /\ exists b b' : Boid,
       nth_error [leader; follower] 0 = Some b
       /\ nth_error [leader; follower] 0 = Some b'
       /\ pygame.distance_to (acceleration b) (acceleration b')
          <= 3 * MAX_FORCE + MOUSE_FORCE.
Proof.
  split; [exact apply_behavior_leader|].
  apply (apply_behavior_bounded [leader; follower] [leader; follower] 0 pointer_far false).
  exact apply_behavior_leader.
Defined.

(** ** The forces depend on relative positions only *)










(** ** The frame *)

Lemma update_boid_Ok_inv (dt : R) (mouse_pos : Vector2) (is_attracted : bool)
    (self : nat) (boids boids' : list Boid) (u : unit) :
  update_boid dt mouse_pos is_attracted self boids = Ok (u, boids') ->
  exists (s : Boid) (f1 f2 f3 f4 : Vector2),
    nth_error boids self = Some s
    /\ align self boids = Ok (f1, boids)
    /\ cohesion self boids = Ok (f2, boids)
    /\ separation self boids = Ok (f3, boids)
    /\ react_to_mouse self mouse_pos is_attracted boids = Ok (f4, boids)
    /\ boids' = replace_nth self (fun _ => moved s f1 f2 f3 f4 dt) boids.
Proof.
  intros H. pose proof H as H0. unfold update_boid in H0.
  apply bind_Ok_inv in H0. destruct H0 as ([] & mid & Ha & _).
  apply apply_behavior_Ok_inv in Ha.
  destruct Ha as (s & f1 & f2 & f3 & f4 & Hs & H1 & H2 & H3 & H4 & _).
  exists s, f1, f2, f3, f4. repeat split; try assumption.
  rewrite (update_boid_run boids self s dt mouse_pos is_attracted f1 f2 f3 f4
             Hs H1 H2 H3 H4) in H.
  congruence.
Qed.

Lemma moved_invariants (s : Boid) (f1 f2 f3 f4 : Vector2) (dt : R) :
  life_history (moved s f1 f2 f3 f4 dt) = life_history s
  /\ pygame.length (velocity (moved s f1 f2 f3 f4 dt)) <= MAX_SPEED
  /\ acceleration (moved s f1 f2 f3 f4 dt) = pygame.zero
  /\ 0 <= pygame.x (position (moved s f1 f2 f3 f4 dt)) <= WIDTH
  /\ 0 <= pygame.y (position (moved s f1 f2 f3 f4 dt)) <= HEIGHT.
Proof.
  unfold moved, integrated. cbv zeta.
  cbn [life_history velocity acceleration position pygame.x pygame.y with_acceleration].
  repeat split; try apply limited_length; try apply mul_zero;
    try (apply wrap_range; pose proof WIDTH_pos; pose proof HEIGHT_pos; lra).
Qed.

(** X10: when [update_all_boids] returns, the population has the same
    size, every boid keeps its place and its history, and every boid has
    a speed of at most [MAX_SPEED], zero acceleration and a position in
    the closed rectangle of the world. *)
Theorem update_all_boids_invariants (dt : R) (mouse_pos : Vector2) (is_attracted : bool)
    (boids after : list Boid) :
  update_all_boids dt mouse_pos is_attracted boids = Ok (tt, after) ->
  List.length after = List.length boids
  /\ forall (k : nat) (b : Boid),
       nth_error after k = Some b ->
       (exists b0 : Boid, nth_error boids k = Some b0 /\ life_history b = life_history b0)
       /\ pygame.length (velocity b) <= MAX_SPEED
       /\ acceleration b = pygame.zero
       /\ 0 <= pygame.x (position b) <= WIDTH
       /\ 0 <= pygame.y (position b) <= HEIGHT.
Proof.
  intros H. unfold update_all_boids, for_boids in H.
  rewrite (bind_Ok len _ boids boids (List.length boids) eq_refl) in H.
  pose proof (frame_keeps_prefix dt mouse_pos is_attracted _ _ _ _ _ H) as [Hlen _].
  split; [exact Hlen|]. intros k b Hb.
  assert (Hk : (k < List.length boids)%nat).
  { rewrite <- Hlen. apply nth_error_Some. rewrite Hb. discriminate. }
  pose proof (frame_in_order dt mouse_pos is_attracted _ _ _ _ _ H k ltac:(lia)) as Hstep.
  apply update_boid_Ok_inv in Hstep.
  destruct Hstep as (s & f1 & f2 & f3 & f4 & Hs & _ & _ & _ & _ & Hafter).
  rewrite nth_error_partly_updated in Hs by exact Hlen.
  rewrite Nat.ltb_irrefl in Hs.
  pose proof (f_equal (fun l => nth_error l k) Hafter) as Hnth. cbv beta in Hnth.
  rewrite nth_error_partly_updated in Hnth by exact Hlen.
  rewrite (proj2 (Nat.ltb_lt k (S k))) in Hnth by lia.
  rewrite (nth_error_replace_nth_eq k _ (partly_updated k after boids) s) in Hnth.
  2:{ rewrite nth_error_partly_updated by exact Hlen. rewrite Nat.ltb_irrefl. exact Hs. }
  rewrite Hb in Hnth. inversion Hnth as [Hbm].
  destruct (moved_invariants s f1 f2 f3 f4 dt) as (I1 & I2 & I3 & I4 & I5).
  split; [exists s; split; [exact Hs | exact I1]|].
  repeat split; assumption || apply I4 || apply I5.
Qed.

Lemma update_all_boids_invariants_witness :
  update_all_boids 1 pointer_far false [leader; follower]
  = Ok (tt, [leader_moved; follower_moved])
  /\ List.length [leader_moved; follower_moved] = List.length [leader; follower]
  /\ forall (k : nat) (b : Boid),
       nth_error [leader_moved; follower_moved] k = Some b ->
       (exists b0 : Boid,
           nth_error [leader; follower] k = Some b0 /\ life_history b = life_history b0)
       /\ pygame.length (velocity b) <= MAX_SPEED
       /\ acceleration b = pygame.zero
       /\ 0 <= pygame.x (position b) <= WIDTH
       /\ 0 <= pygame.y (position b) <= HEIGHT.
Proof.
  split; [exact update_all_boids_pair|].
  apply (update_all_boids_invariants 1 pointer_far false [leader; follower]
           [leader_moved; follower_moved]).
  exact update_all_boids_pair.
Defined.

(** X11: a boid with zero acceleration and a speed within the limit
    that has no qualifying neighbour and is out of the pointer's reach
    keeps its velocity through its turn of the frame and advances by
    velocity times [dt], each coordinate wrapped as by [edges]. *)
Theorem update_boid_coasts (dt : R) (mouse_pos : Vector2) (is_attracted : bool)
    (boids : list Boid) (self : nat) (s : Boid) :
  nth_error boids self = Some s ->
  (forall j boid, nth_error boids j = Some boid -> j <> self ->
     ~ (0 < pygame.distance_to (position s) (position boid) < PERCEPTION)) ->
  ~ (0 < pygame.distance_to (position s) mouse_pos < MOUSE_PERCEPTION) ->
  acceleration s = pygame.zero ->
  pygame.length (velocity s) <= MAX_SPEED ->
  exists p' : Vector2,
    update_boid dt mouse_pos is_attracted self boids
    = Ok (tt, replace_nth self
                (fun _ => mkBoid p' (velocity s) pygame.zero (life_history s)) boids)
    /\ pygame.x p' = wrap WIDTH (pygame.x (position s) + pygame.x (velocity s) * dt)
    /\ pygame.y p' = wrap HEIGHT (pygame.y (position s) + pygame.y (velocity s) * dt).
Proof.
  intros Hs Hnone Hmouse Hacc Hspeed.
  assert (HP : forall j boid, nth_error boids j = Some boid ->
                 qualifies PERCEPTION self s j boid = false).
  { intros j boid Hj. apply not_qualifies. exact (Hnone j boid Hj). }
  assert (HS : forall j boid, nth_error boids j = Some boid ->
                 qualifies SEPARATION self s j boid = false).
  { intros j boid Hj. apply not_qualifies. exact (Hnone j boid Hj). }
  destruct (behaviours_none boids self s Hs HP HS) as (H1 & H2 & H3).
  assert (H4 : react_to_mouse self mouse_pos is_attracted boids = Ok (pygame.zero, boids)).
  { rewrite (react_to_mouse_run boids self s _ _ Hs). unfold mouse_force. cbv zeta.
    destruct (Rltb _ MOUSE_PERCEPTION) eqn:E1; [|reflexivity].
    destruct (Rgtb _ 0) eqn:E2; [|reflexivity].
    apply Rltb_spec in E1. apply Rgtb_spec in E2. exfalso. apply Hmouse. lra. }
  eexists. split.
  - rewrite (update_boid_run boids self s dt mouse_pos is_attracted _ _ _ _ Hs H1 H2 H3 H4).
    do 2 f_equal. apply (replace_nth_ext _ _ _ _ s Hs).
    unfold moved, integrated. cbv zeta.
    cbn [with_acceleration position velocity acceleration life_history].
    rewrite Hacc, !add_zero_r, zero_mul, mul_zero, add_zero_r, (limited_slow _ Hspeed).
    reflexivity.
  - split; reflexivity.
Qed.

Lemma distance_leader_pointer_far :
  pygame.distance_to (position leader) pointer_far = 1000.
Proof. distance_is 1000. Qed.

Lemma length_velocity_leader : pygame.length (velocity leader) = 10.
Proof. length_is 10. Qed.

Lemma update_boid_coasts_witness :
  nth_error [leader; follower] 0 = Some leader
  /\ exists p' : Vector2,
       update_boid 1 pointer_far false 0 [leader; follower]
       = Ok (tt, replace_nth 0
                   (fun _ => mkBoid p' (velocity leader) pygame.zero (life_history leader))
                   [leader; follower])
       /\ pygame.x p'
          = wrap WIDTH (pygame.x (position leader) + pygame.x (velocity leader) * 1)
       /\ pygame.y p'
          = wrap HEIGHT (pygame.y (position leader) + pygame.y (velocity leader) * 1).
Proof.
  split; [reflexivity|].
  apply (update_boid_coasts 1 pointer_far false [leader; follower] 0 leader).
  - reflexivity.
  - intros [|[|j]] boid Hj Hne; simpl in Hj; inversion Hj; subst.
    + rewrite distance_leader_leader. lra.
    + rewrite distance_leader_follower. unfold PERCEPTION. lra.
    + destruct j; discriminate.
  - rewrite distance_leader_pointer_far. unfold MOUSE_PERCEPTION. lra.
  - reflexivity.
  - rewrite length_velocity_leader. unfold MAX_SPEED. lra.
Defined.

(** ** The population handlers *)

Lemma firstn_app_exact (l more : list Boid) : firstn (List.length l) (l ++ more) = l.
Proof. rewrite firstn_app, Nat.sub_diag, firstn_all, firstn_0, app_nil_r. reflexivity. Qed.

(** X12: shrinking by [m] and then by [n] is shrinking by [m + n]. *)
Theorem shrink_shrink (m n : nat) (boids : list Boid) :
  (shrink m ;;; shrink n) boids = shrink (m + n) boids.
Proof.
  rewrite (bind_Ok _ _ _ _ _ (shrink_run m boids)).
  rewrite !shrink_run. rewrite firstn_firstn, length_firstn. do 3 f_equal. lia.
Qed.

(** X13: growing by [n] and then shrinking by [n] gives back the
    population as it was, unless a constructor of the new boids raised
    [ValueError]. *)
Theorem grow_then_shrink (n : nat) (rand : nat -> draws) (boids : list Boid) :
  (grow n rand ;;; shrink n) boids = Ok (tt, boids)
  \/ ((grow n rand ;;; shrink n) boids = Raise ValueError
      /\ grow n rand boids = Raise ValueError).
Proof.
  destruct (new_boids_cases rand (seq 0 n)) as [(more & Hm & Hlen) | (Hm & _)].
  - left. unfold grow. rewrite bind_assoc, Hm. rewrite run_lift with (a := more) by reflexivity.
    unfold extend. unfold bind at 1. rewrite shrink_run.
    rewrite length_app, Hlen, length_seq.
    replace (List.length boids + n - Nat.min n (List.length boids + n))%nat
      with (List.length boids) by lia.
    rewrite firstn_app_exact. reflexivity.
  - right. assert (Hg : grow n rand boids = Raise ValueError).
    { unfold grow. apply bind_Raise. rewrite Hm. reflexivity. }
    split; [apply bind_Raise, Hg | exact Hg].
Qed.

(** ** Boid.draw and draw_all_boids *)

Lemma sqrt_sq_sum_pos (x y : R) : x <> 0 \/ y <> 0 -> 0 < sqrt (x * x + y * y).
Proof. intros H. apply sqrt_lt_R0. destruct H; nra. Qed.

Lemma cos_sin_atan_pos (x y : R) :
  0 < x ->
  cos (atan (y / x)) = x / sqrt (x * x + y * y)
  /\ sin (atan (y / x)) = y / sqrt (x * x + y * y).
Proof.
  intros Hx. rewrite cos_atan, sin_atan.
  assert (Hs : sqrt (1 + (y / x)²) = sqrt (x * x + y * y) / x).
  { apply sqrt_lem_1.
    - unfold Rsqr. pose proof (Rle_0_sqr (y / x)) as H. unfold Rsqr in H. lra.
    - apply Rmult_le_pos; [apply sqrt_pos | apply Rlt_le, Rinv_0_lt_compat, Hx].
    - unfold Rsqr.
      replace (sqrt (x * x + y * y) / x * (sqrt (x * x + y * y) / x))
        with ((sqrt (x * x + y * y) * sqrt (x * x + y * y)) / (x * x)) by (field; lra).
      rewrite sqrt_sqrt by nra. field. lra. }
  rewrite Hs.
  assert (Hpos : 0 < sqrt (x * x + y * y)) by (apply sqrt_sq_sum_pos; left; lra).
  split; field; lra.
Qed.

Lemma cos_sin_atan_neg (x y : R) :
  x < 0 ->
  cos (atan (y / x)) = - x / sqrt (x * x + y * y)
  /\ sin (atan (y / x)) = - y / sqrt (x * x + y * y).
Proof.
  intros Hx. destruct (cos_sin_atan_pos (- x) (- y)) as [Hc Hs]; [lra|].
  replace (- y / - x) with (y / x) in * by (field; lra).
  replace (- x * - x + - y * - y) with (x * x + y * y) in * by ring.
  split; assumption.
Qed.

(** The angle of [atan2] is the direction of the vector. *)
Lemma cos_sin_atan2 (x y : R) :
  x <> 0 \/ y <> 0 ->
  cos (atan2 y x) = x / sqrt (x * x + y * y)
  /\ sin (atan2 y x) = y / sqrt (x * x + y * y).
Proof.
  intros Hne. pose proof (sqrt_sq_sum_pos x y Hne) as Hpos. unfold atan2.
  destruct (Rgtb x 0) eqn:E1.
  - apply Rgtb_spec in E1. apply cos_sin_atan_pos. lra.
  - apply Rgtb_spec_false in E1. destruct (Rltb x 0) eqn:E2.
    + apply Rltb_spec in E2. destruct (cos_sin_atan_neg x y E2) as [Hc Hs].
      destruct (Rltb y 0).
      * rewrite cos_minus, sin_minus, cos_PI, sin_PI, Hc, Hs. split; field; lra.
      * rewrite neg_cos, neg_sin, Hc, Hs. split; field; lra.
    + apply Rltb_spec_false in E2. assert (x = 0) by lra. subst x.
      replace (0 * 0 + y * y) with (y * y) in * by ring.
      destruct (Rgtb y 0) eqn:E3.
      * apply Rgtb_spec in E3. rewrite cos_PI2, sin_PI2, sqrt_square by lra.
        split; field; lra.
      * apply Rgtb_spec_false in E3. destruct (Rltb y 0) eqn:E4.
        -- apply Rltb_spec in E4. rewrite cos_neg, sin_neg, cos_PI2, sin_PI2.
           replace (y * y) with (- y * - y) by ring. rewrite sqrt_square by lra.
           split; field; lra.
        -- apply Rltb_spec_false in E4. destruct Hne; lra.
Qed.

Lemma atan2_zero : atan2 0 0 = 0.
Proof.
  unfold atan2. rewrite Rgtb_false, Rltb_false by lra. reflexivity.
Qed.

(** X14: [draw] changes nothing and draws a triangle in the colour of
    the mode (blue when attracted, red otherwise) whose three points
    all lie at distance [BOID_SIZE] from the position of the boid; the
    first point lies in the direction of the velocity, and to the right
    of the position when the velocity is zero. *)
Theorem draw_triangle (boids : list Boid) (self : nat) (s : Boid) (is_attracted : bool) :
  nth_error boids self = Some s ->
  exists p1 p2 p3 : R * R,
    draw self is_attracted boids
    = Ok ((if is_attracted then BLUE else RED, [p1; p2; p3]), boids)
    /\ (forall p, In p [p1; p2; p3] ->
          pygame.distance_to (position s) (pygame.mkVector2 (fst p) (snd p)) = BOID_SIZE)
    /\ (velocity s <> pygame.zero ->
        pygame.mkVector2 (fst p1) (snd p1)
        = (position s + velocity s * (BOID_SIZE / pygame.length (velocity s)))%V)
    /\ (velocity s = pygame.zero ->
        p1 = (pygame.x (position s) + BOID_SIZE, pygame.y (position s))).
Proof.
  intros Hs. unfold draw. run. cbv zeta.
  do 3 eexists. split; [reflexivity|]. split; [|split].
  - assert (Hcircle : forall a,
              pygame.distance_to (position s)
                (pygame.mkVector2 (pygame.x (position s) + BOID_SIZE * cos a)
                                  (pygame.y (position s) + BOID_SIZE * sin a))
              = BOID_SIZE).
    { intros a. apply distance_to_eq; [unfold BOID_SIZE; lra|].
      cbn [pygame.x pygame.y]. pose proof (sin2_cos2 a) as H. unfold Rsqr in H.
      replace ((pygame.x (position s) + BOID_SIZE * cos a - pygame.x (position s))
               * (pygame.x (position s) + BOID_SIZE * cos a - pygame.x (position s))
               + (pygame.y (position s) + BOID_SIZE * sin a - pygame.y (position s))
                 * (pygame.y (position s) + BOID_SIZE * sin a - pygame.y (position s)))
        with (BOID_SIZE * BOID_SIZE * (sin a * sin a + cos a * cos a)) by ring.
      rewrite H. ring. }
    intros p [<- | [<- | [<- | []]]]; cbn [fst snd]; apply Hcircle.
  - intros Hv. cbn [fst snd].
    assert (Hne : pygame.x (velocity s) <> 0 \/ pygame.y (velocity s) <> 0).
    { destruct (velocity s) as [vx vy]. cbn [pygame.x pygame.y].
      destruct (Req_dec_T vx 0) as [-> | Hx]; [|left; exact Hx].
      destruct (Req_dec_T vy 0) as [-> | Hy]; [|right; exact Hy].
      exfalso. apply Hv. reflexivity. }
    destruct (cos_sin_atan2 _ _ Hne) as [Hc Hsn]. rewrite Hc, Hsn.
    pose proof (sqrt_sq_sum_pos _ _ Hne) as Hpos.
    unfold pygame.add, pygame.mul, pygame.length. cbn [pygame.x pygame.y].
    f_equal; field; lra.
  - intros Hv. rewrite Hv. cbn [pygame.x pygame.y pygame.zero].
    rewrite atan2_zero, cos_0, sin_0. f_equal; ring.
Qed.

Lemma draw_triangle_witness :
  nth_error [resting_boid] 0 = Some resting_boid
  /\ exists p1 p2 p3 : R * R,
       draw 0 true [resting_boid] = Ok ((BLUE, [p1; p2; p3]), [resting_boid])
       /\ (forall p, In p [p1; p2; p3] ->
             pygame.distance_to (position resting_boid) (pygame.mkVector2 (fst p) (snd p))
             = BOID_SIZE)
       /\ (velocity resting_boid <> pygame.zero ->
           pygame.mkVector2 (fst p1) (snd p1)
           = (position resting_boid
              + velocity resting_boid * (BOID_SIZE / pygame.length (velocity resting_boid)))%V)
       /\ (velocity resting_boid = pygame.zero ->
           p1 = (pygame.x (position resting_boid) + BOID_SIZE,
                 pygame.y (position resting_boid))).
Proof.
  split; [reflexivity | apply (draw_triangle [resting_boid] 0 resting_boid true)].
  reflexivity.
Defined.

Lemma draw_run_exists (boids : list Boid) (self : nat) (s : Boid) (is_attracted : bool) :
  nth_error boids self = Some s ->
  exists polygon, draw self is_attracted boids = Ok (polygon, boids).
Proof. intros Hs. unfold draw. run. cbv zeta. eexists. reflexivity. Qed.

Lemma draw_loop (is_attracted : bool) (boids : list Boid) (m k : nat)
    (screen : list (color * list (R * R))) :
  (k + m <= List.length boids)%nat ->
  exists more,
    for_range (seq k m)
      (fun boid screen => polygon <- draw boid is_attracted ;; ret (screen ++ [polygon]))
      screen boids
    = Ok (screen ++ more, boids)
    /\ List.length more = m
    /\ forall i polygon, nth_error more i = Some polygon ->
         draw (k + i) is_attracted boids = Ok (polygon, boids).
Proof.
  revert k screen. induction m as [|m IH]; intros k screen Hk.
  - exists []. rewrite app_nil_r. split; [reflexivity|]. split; [reflexivity|].
    intros [|i] polygon H; discriminate.
  - destruct (nth_error boids k) as [s|] eqn:Hs;
      [|apply nth_error_None in Hs; lia].
    destruct (draw_run_exists boids k s is_attracted Hs) as [polygon Hp].
    destruct (IH (S k) (screen ++ [polygon]) ltac:(lia)) as (more & Hrun & Hlen & Hnth).
    exists (polygon :: more). cbn [seq for_range].
    rewrite bind_assoc, (bind_Ok _ _ _ _ _ Hp), run_ret, Hrun.
    rewrite <- app_assoc. split; [reflexivity|]. split; [simpl; lia|].
    intros [|i] polygon' H; simpl in H.
    + inversion H. subst. rewrite Nat.add_0_r. exact Hp.
    + replace (k + S i)%nat with (S k + i)%nat by lia. apply Hnth, H.
Qed.

(** X15: [draw_all_boids] never fails and leaves the population as it
    is; it draws one polygon per boid, in list order, the [k]-th being
    the one [draw] makes for the [k]-th boid. *)
Theorem draw_all_boids_one_triangle_each (is_attracted : bool) (boids : list Boid) :
  exists screen : list (color * list (R * R)),
    draw_all_boids is_attracted boids = Ok (screen, boids)
    /\ List.length screen = List.length boids
    /\ forall (k : nat) (polygon : color * list (R * R)),
         nth_error screen k = Some polygon ->
         draw k is_attracted boids = Ok (polygon, boids).
Proof.
  unfold draw_all_boids, for_boids.
  rewrite (bind_Ok len _ boids boids (List.length boids) eq_refl).
  destruct (draw_loop is_attracted boids (List.length boids) 0 [] ltac:(lia))
    as (more & Hrun & Hlen & Hnth).
  exists more. split; [exact Hrun|]. split; [exact Hlen|]. exact Hnth.
Qed.
